(** * Valgrind run control (src/plugins/valgrind/valgrindengine.cpp)

    A shallow embedding of [ValgrindRunControl]: the member functions become
    functions on a record of the object's members, every call the object makes
    on its collaborators (runner, progress interface, message sink, output
    pane) is appended to an ordered effect trace, and Qt's signal delivery is
    modelled by an explicit connection table. *)

From Stdlib Require Import String Ascii List Bool Arith ZArith Lia.
Import ListNotations.
Local Open Scope string_scope.

(** ** Strings *)

Module QStr.

(** [QLatin1Char('\n')]. *)
Definition LF : string := String "010"%char EmptyString.

(** The double-quote character that the source escapes inside a literal. *)
Definition DQUOTE : string := String "034"%char EmptyString.

(** [QString::isEmpty]. *)
Definition isEmpty (s : string) : bool :=
  match s with
  | EmptyString => true
  | String _ _ => false
  end.

(** [QObject::tr] looks a source text up in the installed translators and
    returns the source text itself when none provides a translation; the
    development fixes that untranslated configuration. *)
Definition tr (source : string) : string := source.

(** [QString::contains]: [needle] occurs somewhere in [hay]. *)
Fixpoint contains (hay needle : string) : bool :=
  if prefix needle hay then true
  else match hay with
       | EmptyString => false
       | String _ hay' => contains hay' needle
       end.

(** *** Place markers of [QString::arg]

    A template holds markers [%1] .. [%99] (optionally written [%L1]).  The
    call [arg(a1, .., an)] replaces, in one pass over the template, every
    occurrence of the lowest-numbered marker by [a1], of the next-lowest by
    [a2], and so on; text that is not a marker, and markers left without an
    argument, are copied unchanged.  The arguments are never rescanned. *)

Inductive Piece : Type :=
| Text (t : string)
| Marker (number : nat) (raw : string).

Inductive ScanMode : Type :=
| Plain
| Percent (raw : string)
| Number (n : nat) (raw : string).

Definition is_digit (c : ascii) : bool :=
  (48 <=? nat_of_ascii c)%nat && (nat_of_ascii c <=? 57)%nat.

Definition digit_value (c : ascii) : nat := nat_of_ascii c - 48.

Definition snoc (s : string) (c : ascii) : string := s ++ String c EmptyString.

(** Reading [c] outside of any marker. *)
Definition enter (c : ascii) : list Piece * ScanMode :=
  if Ascii.eqb c "%"%char then ([], Percent "%")
  else ([Text (String c EmptyString)], Plain).

Fixpoint scan (m : ScanMode) (s : string) : list Piece :=
  match s with
  | EmptyString =>
      match m with
      | Plain => []
      | Percent raw => [Text raw]
      | Number n raw => [Marker n raw]
      end
  | String c rest =>
      match m with
      | Plain =>
          let (out, m') := enter c in out ++ scan m' rest
      | Percent raw =>
          if is_digit c then scan (Number (digit_value c) (snoc raw c)) rest
          else if Ascii.eqb c "L"%char && String.eqb raw "%"
               then scan (Percent (snoc raw c)) rest
          else let (out, m') := enter c in Text raw :: out ++ scan m' rest
      | Number n raw =>
          if is_digit c
          then Marker (10 * n + digit_value c) (snoc raw c) :: scan Plain rest
          else let (out, m') := enter c in Marker n raw :: out ++ scan m' rest
      end
  end.

(** The marker numbers of a template, ascending and without repetition. *)
Fixpoint insert_number (n : nat) (l : list nat) : list nat :=
  match l with
  | [] => [n]
  | k :: l' =>
      if (n <? k)%nat then n :: l
      else if (n =? k)%nat then l
      else k :: insert_number n l'
  end.

Fixpoint marker_numbers (ps : list Piece) : list nat :=
  match ps with
  | [] => []
  | Text _ :: ps' => marker_numbers ps'
  | Marker n _ :: ps' => insert_number n (marker_numbers ps')
  end.

(** The argument that replaces marker [n]: the i-th lowest number takes the
    i-th argument. *)
Fixpoint argument_for (n : nat) (numbers : list nat) (args : list string)
  : option string :=
  match numbers, args with
  | k :: numbers', a :: args' =>
      if (n =? k)%nat then Some a else argument_for n numbers' args'
  | _, _ => None
  end.

Definition render (numbers : list nat) (args : list string) (p : Piece)
  : string :=
  match p with
  | Text t => t
  | Marker n raw =>
      match argument_for n numbers args with
      | Some a => a
      | None => raw
      end
  end.

Definition multiArg (template : string) (args : list string) : string :=
  let ps := scan Plain template in
  fold_right (fun p acc => render (marker_numbers ps) args p ++ acc)
             EmptyString ps.

(** [QString::arg(const QString &)]. *)
Definition arg (template a : string) : string := multiArg template [a].

(** [QString::arg(const QString &, const QString &)]. *)
Definition arg2 (template a1 a2 : string) : string :=
  multiArg template [a1; a2].

End QStr.

(** ** Data *)

Module Valgrind.
Import QStr.

(** [ValgrindBaseSettings::SelfModifyingCodeDetection].  An object of a C++
    enumeration type can hold an integer that is none of its enumerators
    (the setting is read back from stored configuration); [DetectSmcUnlisted]
    stands for every such value. *)
Inductive SelfModifyingCodeDetection : Type :=
| DetectSmcNo
| DetectSmcStackOnly
| DetectSmcEverywhere
| DetectSmcEverywhereButFile
| DetectSmcUnlisted (raw : Z).

(** The two accessors of the settings object that the run control reads. *)
Record ValgrindBaseSettings : Type := {
  valgrindExecutable : string;
  selfModifyingCodeDetection : SelfModifyingCodeDetection
}.

(** [QProcess::ProcessError]. *)
Inductive ProcessError : Type :=
| FailedToStart | Crashed | Timedout | ReadError | WriteError | UnknownError.

Definition ProcessError_eqb (a b : ProcessError) : bool :=
  match a, b with
  | FailedToStart, FailedToStart | Crashed, Crashed | Timedout, Timedout
  | ReadError, ReadError | WriteError, WriteError
  | UnknownError, UnknownError => true
  | _, _ => false
  end.

(** [Utils::OutputFormat]. *)
Inductive OutputFormat : Type :=
| NormalMessageFormat | ErrorMessageFormat | DebugFormat
| StdOutFormat | StdErrFormat | StdOutFormatSameLine | StdErrFormatSameLine.

(** [ApplicationLauncher::Mode]. *)
Inductive LauncherMode : Type := Console | Gui.

(** [IOutputPane::Flag]. *)
Inductive PopupFlag : Type := NoModeSwitch | ModeSwitch | WithFocus.

(** [FutureProgress::KeepOnFinishType]. *)
Inductive KeepOnFinishType : Type :=
| HideOnFinish | KeepOnFinishTillUserInteraction | KeepOnFinish.

(** [Utils::Environment]: variable names with their values. *)
Definition Environment : Type := list (string * string).

(** What [PluginManager::getObjectByName] can return: an object that
    [qobject_cast<IOutputPane *>] accepts, or one that it rejects. *)
Inductive PoolObject : Type := OutputPaneObject | ForeignObject.

Definition ObjectPool : Type := list (string * PoolObject).

Fixpoint getObjectByName (pool : ObjectPool) (name : string)
  : option PoolObject :=
  match pool with
  | [] => None
  | (n, o) :: pool' =>
      if String.eqb n name then Some o else getObjectByName pool' name
  end.

Definition qobject_cast_IOutputPane (obj : option PoolObject) : bool :=
  match obj with
  | Some OutputPaneObject => true
  | _ => false
  end.

(** The run configuration as the constructor queries it: [extraAspect(id)]
    gives an aspect or null, [currentSettings()] of the aspect gives a
    settings object of some class or null, and the [qobject_cast] keeps it
    only when it is a [ValgrindBaseSettings]. *)
Inductive ISettingsAspect : Type :=
| ValgrindSettingsObject (st : ValgrindBaseSettings)
| ForeignSettingsObject.

Record IRunConfigurationAspect : Type := {
  currentSettings : option ISettingsAspect
}.

Record RunConfiguration : Type := {
  extraAspect : string -> option IRunConfigurationAspect
}.

Definition qobject_cast_ValgrindBaseSettings (o : option ISettingsAspect)
  : option ValgrindBaseSettings :=
  match o with
  | Some (ValgrindSettingsObject st) => Some st
  | _ => None
  end.

(** The id under which the Valgrind aspect is registered; it is declared
    outside this file and only its identity matters. *)
Definition ANALYZER_VALGRIND_SETTINGS : string := "Analyzer.Valgrind.Settings".

(** *** Signals, slots and the connection table *)

(** The signals that [startEngine] connects: three of the runner, two of
    the [FutureProgress] object it obtains for the task ([fp] numbers the
    tasks in the order they were added). *)
Inductive Signal : Type :=
| Runner_processOutputReceived
| Runner_processErrorReceived
| Runner_finished
| FutureProgress_canceled (fp : nat)
| FutureProgress_finished (fp : nat).

Inductive Slot : Type :=
| Slot_receiveProcessOutput
| Slot_receiveProcessError
| Slot_runnerFinished
| Slot_handleProgressCanceled
| Slot_handleProgressFinished.

Record Connection : Type := { signal : Signal; slot : Slot }.

(** One emission of a signal, with its arguments. *)
Inductive Emission : Type :=
| processOutputReceived (output : string) (format : OutputFormat)
| processErrorReceived (message : string) (error : ProcessError)
| finished
| progressCanceled (fp : nat)
| progressFinished (fp : nat).

Definition signal_of (e : Emission) : Signal :=
  match e with
  | processOutputReceived _ _ => Runner_processOutputReceived
  | processErrorReceived _ _ => Runner_processErrorReceived
  | finished => Runner_finished
  | progressCanceled fp => FutureProgress_canceled fp
  | progressFinished fp => FutureProgress_finished fp
  end.

Definition Signal_eqb (a b : Signal) : bool :=
  match a, b with
  | Runner_processOutputReceived, Runner_processOutputReceived => true
  | Runner_processErrorReceived, Runner_processErrorReceived => true
  | Runner_finished, Runner_finished => true
  | FutureProgress_canceled i, FutureProgress_canceled j => (i =? j)%nat
  | FutureProgress_finished i, FutureProgress_finished j => (i =? j)%nat
  | _, _ => false
  end.

Definition Slot_eqb (a b : Slot) : bool :=
  match a, b with
  | Slot_receiveProcessOutput, Slot_receiveProcessOutput => true
  | Slot_receiveProcessError, Slot_receiveProcessError => true
  | Slot_runnerFinished, Slot_runnerFinished => true
  | Slot_handleProgressCanceled, Slot_handleProgressCanceled => true
  | Slot_handleProgressFinished, Slot_handleProgressFinished => true
  | _, _ => false
  end.

Definition Connection_eqb (a b : Connection) : bool :=
  Signal_eqb (signal a) (signal b) && Slot_eqb (slot a) (slot b).

(** *** Effects

    Every call on a collaborator, in program order. *)
Inductive Effect : Type :=
(* signals of the run control itself *)
| EmitStarting
| EmitFinished
(* ProgressManager / FutureProgress *)
| AddTimedTask (title : string) (type : string) (expectedSeconds : Z)
| SetKeepOnFinish (fp : nat) (k : KeepOnFinishType)
(* m_progress, a QFutureInterface<void> *)
| ReportStarted
| Cancel
| ReportCanceled
| ReportFinished
(* the runner *)
| SetWorkingDirectory (dir : string)
| SetValgrindExecutable (exe : string)
| SetValgrindArguments (args : list string)
| SetDebuggeeExecutable (exe : string)
| SetDebuggeeArguments (args : string)
| SetEnvironment (env : Environment)
| SetConnectionParameters (params : string)
| SetUseStartupProject (b : bool)
| SetLocalRunMode (m : LauncherMode)
| RunnerStart
| RunnerStop
(* RunControl::appendMessage, the message sink *)
| AppendMessage (text : string) (format : OutputFormat)
(* AnalyzerManager, QApplication, IOutputPane *)
| StopTool
| Alert (msec : Z)
| Popup (flag : PopupFlag).

(** *** The object *)

(** The part of the base class [AnalyzerRunControl] that is read here:
    [workingDirectory()], [runnable()] and [connection()]. *)
Record AnalyzerRunControl : Type := {
  workingDirectory : string;
  runnable_debuggee : string;
  runnable_debuggeeArgs : string;
  connection_connParams : string
}.

(** The pure virtual members that a concrete tool supplies. *)
Record ToolInterface : Type := {
  progressTitle : string;
  toolArguments : list string
}.

Record RunControl : Type := {
  base : AnalyzerRunControl;
  tool : ToolInterface;
  m_settings : option ValgrindBaseSettings;   (* a pointer, null as [None] *)
  m_isStopping : bool;
  m_isCustomStart : bool;
  m_localRunMode : LauncherMode;
  m_environment : Environment;
  (* the surroundings *)
  connections : list Connection;   (* Qt's table, in connection order *)
  progressTasks : nat;             (* FutureProgress objects handed out *)
  objectPool : ObjectPool;         (* the plugin manager's object pool *)
  trace : list Effect
}.

Definition set_isStopping (b : bool) (s : RunControl) : RunControl :=
  {| base := base s; tool := tool s; m_settings := m_settings s;
     m_isStopping := b; m_isCustomStart := m_isCustomStart s;
     m_localRunMode := m_localRunMode s; m_environment := m_environment s;
     connections := connections s; progressTasks := progressTasks s;
     objectPool := objectPool s; trace := trace s |}.

Definition set_localRunMode (m : LauncherMode) (s : RunControl) : RunControl :=
  {| base := base s; tool := tool s; m_settings := m_settings s;
     m_isStopping := m_isStopping s; m_isCustomStart := m_isCustomStart s;
     m_localRunMode := m; m_environment := m_environment s;
     connections := connections s; progressTasks := progressTasks s;
     objectPool := objectPool s; trace := trace s |}.

Definition set_environment (e : Environment) (s : RunControl) : RunControl :=
  {| base := base s; tool := tool s; m_settings := m_settings s;
     m_isStopping := m_isStopping s; m_isCustomStart := m_isCustomStart s;
     m_localRunMode := m_localRunMode s; m_environment := e;
     connections := connections s; progressTasks := progressTasks s;
     objectPool := objectPool s; trace := trace s |}.

Definition set_connections (c : list Connection) (s : RunControl)
  : RunControl :=
  {| base := base s; tool := tool s; m_settings := m_settings s;
     m_isStopping := m_isStopping s; m_isCustomStart := m_isCustomStart s;
     m_localRunMode := m_localRunMode s; m_environment := m_environment s;
     connections := c; progressTasks := progressTasks s;
     objectPool := objectPool s; trace := trace s |}.

Definition set_progressTasks (n : nat) (s : RunControl) : RunControl :=
  {| base := base s; tool := tool s; m_settings := m_settings s;
     m_isStopping := m_isStopping s; m_isCustomStart := m_isCustomStart s;
     m_localRunMode := m_localRunMode s; m_environment := m_environment s;
     connections := connections s; progressTasks := n;
     objectPool := objectPool s; trace := trace s |}.

Definition set_trace (t : list Effect) (s : RunControl) : RunControl :=
  {| base := base s; tool := tool s; m_settings := m_settings s;
     m_isStopping := m_isStopping s; m_isCustomStart := m_isCustomStart s;
     m_localRunMode := m_localRunMode s; m_environment := m_environment s;
     connections := connections s; progressTasks := progressTasks s;
     objectPool := objectPool s; trace := t |}.

(** Performing one effect. *)
Definition perform (e : Effect) (s : RunControl) : RunControl :=
  set_trace (trace s ++ [e]) s.

(** [QObject::connect] appends a connection (a repeated connect adds a
    second one); [QObject::disconnect] removes every connection between the
    given signal and slot. *)
Definition connect (sg : Signal) (sl : Slot) (s : RunControl) : RunControl :=
  set_connections (connections s ++ [{| signal := sg; slot := sl |}]) s.

Definition disconnect (sg : Signal) (sl : Slot) (s : RunControl)
  : RunControl :=
  set_connections
    (filter (fun c => negb (Connection_eqb c {| signal := sg; slot := sl |}))
            (connections s)) s.

Definition connected (c : Connection) (s : RunControl) : bool :=
  existsb (Connection_eqb c) (connections s).

(** Sequencing of calls that may dereference a null pointer. *)
Definition bind {A B : Type} (m : option A) (k : A -> option B) : option B :=
  match m with
  | Some a => k a
  | None => None
  end.

Notation "x <- m ;; k" := (bind m (fun x => k))
  (at level 61, m at next level, right associativity).

(** ** The member functions *)

(** The constructor.  [globalSettings] is what
    [ValgrindPlugin::globalSettings()] returns. *)
Definition ValgrindRunControl
    (b : AnalyzerRunControl) (t : ToolInterface)
    (runConfiguration : option RunConfiguration)
    (globalSettings : option ValgrindBaseSettings)
    (pool : ObjectPool) : RunControl :=
  let fromAspect :=
    match runConfiguration with
    | Some rc =>
        match extraAspect rc ANALYZER_VALGRIND_SETTINGS with
        | Some aspect =>
            qobject_cast_ValgrindBaseSettings (currentSettings aspect)
        | None => None
        end
    | None => None
    end in
  {| base := b; tool := t;
     m_settings := match fromAspect with
                   | Some st => Some st
                   | None => globalSettings
                   end;
     m_isStopping := false;
     m_isCustomStart := false;
     m_localRunMode := Gui;
     m_environment := [];
     connections := []; progressTasks := 0; objectPool := pool;
     trace := [] |}.

Definition executable (s : RunControl) : string := runnable_debuggee (base s).

Definition setEnvironment (environment : Environment) (s : RunControl)
  : RunControl := set_environment environment s.

Definition setLocalRunMode (localRunMode : LauncherMode) (s : RunControl)
  : RunControl := set_localRunMode localRunMode s.

Definition genericToolArguments (s : RunControl) : list string :=
  match m_settings s with
  | None => []                       (* QTC_ASSERT(m_settings, return ...) *)
  | Some st =>
      let smcCheckValue :=
        match selfModifyingCodeDetection st with
        | DetectSmcNo => "none"
        | DetectSmcEverywhere => "all"
        | DetectSmcEverywhereButFile => "all-non-file"
        | DetectSmcStackOnly => "stack"
        | _ => "stack"               (* default: *)
        end in
      ["--smc-check=" ++ smcCheckValue]
  end.

Definition handleProgressCanceled (s : RunControl) : RunControl :=
  perform ReportFinished (perform ReportCanceled (perform StopTool s)).

Definition handleProgressFinished (s : RunControl) : RunControl :=
  perform (Alert 3000) s.

Definition runnerFinished (s : RunControl) : RunControl :=
  let s := perform (AppendMessage (tr "Analyzing finished." ++ LF)
                                  NormalMessageFormat) s in
  let s := perform EmitFinished s in
  let s := perform ReportFinished s in
  let s := disconnect Runner_processOutputReceived Slot_receiveProcessOutput s in
  disconnect Runner_finished Slot_runnerFinished s.

Definition receiveProcessOutput (output : string) (format : OutputFormat)
    (s : RunControl) : RunControl :=
  perform (AppendMessage output format) s.

(** The three texts of [receiveProcessError]. *)
Definition could_not_be_started (valgrind message : string) : string :=
  arg2 (tr ("Error: " ++ DQUOTE ++ "%1" ++ DQUOTE
            ++ " could not be started: %2"))
       valgrind message ++ LF.

Definition no_executable_set : string :=
  tr "Error: no Valgrind executable set." ++ LF.

Definition process_terminated : string := tr "Process terminated." ++ LF.

Definition starred (message : string) : string :=
  arg ("** %1 **" ++ LF) message.

Definition receiveProcessError (message : string) (error : ProcessError)
    (s : RunControl) : option RunControl :=
  s <- (if ProcessError_eqb error FailedToStart then
          st <- m_settings s ;;       (* m_settings->valgrindExecutable() *)
          let valgrind := valgrindExecutable st in
          if negb (isEmpty valgrind)
          then Some (perform (AppendMessage
                                (could_not_be_started valgrind message)
                                ErrorMessageFormat) s)
          else Some (perform (AppendMessage no_executable_set
                                            ErrorMessageFormat) s)
        else if m_isStopping s && ProcessError_eqb error Crashed then
          (* process gets killed on stop *)
          Some (perform (AppendMessage process_terminated
                                       ErrorMessageFormat) s)
        else
          Some (perform (AppendMessage (starred message)
                                       ErrorMessageFormat) s)) ;;
  if m_isStopping s then Some s
  else
    let obj := getObjectByName (objectPool s) "AppOutputPane" in
    if qobject_cast_IOutputPane obj
    then Some (perform (Popup NoModeSwitch) s)
    else Some s.

(** *** Signal delivery

    An emission calls, in connection order, the slot of every connection of
    the signal that existed when the emission began and has not been
    disconnected by a slot called earlier in the same emission. *)
Definition invoke (sl : Slot) (e : Emission) (s : RunControl)
  : option RunControl :=
  match sl, e with
  | Slot_receiveProcessOutput, processOutputReceived output format =>
      Some (receiveProcessOutput output format s)
  | Slot_receiveProcessError, processErrorReceived message error =>
      receiveProcessError message error s
  | Slot_runnerFinished, finished => Some (runnerFinished s)
  | Slot_handleProgressCanceled, progressCanceled _ =>
      Some (handleProgressCanceled s)
  | Slot_handleProgressFinished, progressFinished _ =>
      Some (handleProgressFinished s)
  | _, _ => Some s   (* a signature mismatch, which connect rejects *)
  end.

Fixpoint deliver (snapshot : list Connection) (e : Emission) (s : RunControl)
  : option RunControl :=
  match snapshot with
  | [] => Some s
  | c :: rest =>
      if Signal_eqb (signal c) (signal_of e) && connected c s
      then s' <- invoke (slot c) e s ;; deliver rest e s'
      else deliver rest e s
  end.

Definition emit (e : Emission) (s : RunControl) : option RunControl :=
  deliver (connections s) e s.

Fixpoint emit_all (es : list Emission) (s : RunControl) : option RunControl :=
  match es with
  | [] => Some s
  | e :: es' => s' <- emit e s ;; emit_all es' s'
  end.

(** What the runner does inside [start()] and [stop()] is outside this
    file: the signals it emits before the call returns, and the value
    [start()] returns, are inputs. *)
Record RunnerStartReply : Type := {
  emittedInStart : list Emission;
  startReturns : bool
}.

Definition startEngine (reply : RunnerStartReply) (s : RunControl)
  : option (bool * RunControl) :=
  let s := perform EmitStarting s in
  let fp := progressTasks s in
  let s := set_progressTasks (S fp)
             (perform (AddTimedTask (progressTitle (tool s)) "valgrind" 100)
                      s) in
  let s := perform (SetKeepOnFinish fp HideOnFinish) s in
  let s := connect (FutureProgress_canceled fp) Slot_handleProgressCanceled s in
  let s := connect (FutureProgress_finished fp) Slot_handleProgressFinished s in
  let s := perform ReportStarted s in
  let s := perform (SetWorkingDirectory (workingDirectory (base s))) s in
  st <- m_settings s ;;               (* m_settings->valgrindExecutable() *)
  let s := perform (SetValgrindExecutable (valgrindExecutable st)) s in
  let s := perform (SetValgrindArguments
                      (genericToolArguments s ++ toolArguments (tool s))) s in
  let s := perform (SetDebuggeeExecutable (runnable_debuggee (base s))) s in
  let s := perform (SetDebuggeeArguments (runnable_debuggeeArgs (base s))) s in
  let s := perform (SetEnvironment (m_environment s)) s in
  let s := perform (SetConnectionParameters (connection_connParams (base s)))
                   s in
  let s := perform (SetUseStartupProject (negb (m_isCustomStart s))) s in
  let s := perform (SetLocalRunMode (m_localRunMode s)) s in
  let s := connect Runner_processOutputReceived Slot_receiveProcessOutput s in
  let s := connect Runner_processErrorReceived Slot_receiveProcessError s in
  let s := connect Runner_finished Slot_runnerFinished s in
  let s := perform RunnerStart s in
  s <- emit_all (emittedInStart reply) s ;;
  if negb (startReturns reply)
  then Some (false, perform Cancel s)
  else Some (true, s).

Definition stopEngine (emittedInStop : list Emission) (s : RunControl)
  : option RunControl :=
  let s := set_isStopping true s in
  let s := perform RunnerStop s in
  emit_all emittedInStop s.

(** *** Histories

    What can happen to the object: its public members are called, and
    signals it is connected to are emitted. *)
Inductive Call : Type :=
| CallStartEngine (reply : RunnerStartReply)
| CallStopEngine (emittedInStop : list Emission)
| CallSetEnvironment (environment : Environment)
| CallSetLocalRunMode (localRunMode : LauncherMode)
| Emitted (e : Emission).

Definition step (c : Call) (s : RunControl) : option RunControl :=
  match c with
  | CallStartEngine reply => r <- startEngine reply s ;; Some (snd r)
  | CallStopEngine es => stopEngine es s
  | CallSetEnvironment environment => Some (setEnvironment environment s)
  | CallSetLocalRunMode m => Some (setLocalRunMode m s)
  | Emitted e => emit e s
  end.

Fixpoint run (cs : list Call) (s : RunControl) : option RunControl :=
  match cs with
  | [] => Some s
  | c :: cs' => s' <- step c s ;; run cs' s'
  end.

(** The effects that a step added to the trace of [s]. *)
Definition added (s s' : RunControl) : list Effect :=
  skipn (length (trace s)) (trace s').



Definition is_Popup (e : Effect) : bool :=
  match e with
  | Popup _ => true
  | _ => false
  end.

Definition count (p : Effect -> bool) (t : list Effect) : nat :=
  length (filter p t).

(** *** The reading side of [receiveProcessError]

    The text it appends and whether it activates the pane, as functions of
    the members it reads; [receiveProcessError_reads] relates them to the
    member function. *)
Definition classify (s : RunControl) (message : string) (error : ProcessError)
  : option string :=
  match error with
  | FailedToStart =>
      st <- m_settings s ;;
      Some (if isEmpty (valgrindExecutable st) then no_executable_set
            else could_not_be_started (valgrindExecutable st) message)
  | Crashed =>
      Some (if m_isStopping s then process_terminated else starred message)
  | _ => Some (starred message)
  end.

Definition pane_activation (s : RunControl) : list Effect :=
  if m_isStopping s then []
  else if qobject_cast_IOutputPane
            (getObjectByName (objectPool s) "AppOutputPane")
       then [Popup NoModeSwitch]
       else [].

Definition err_conn : Connection :=
  {| signal := Runner_processErrorReceived; slot := Slot_receiveProcessError |}.

Definition out_conn : Connection :=
  {| signal := Runner_processOutputReceived; slot := Slot_receiveProcessOutput |}.

Definition fin_conn : Connection :=
  {| signal := Runner_finished; slot := Slot_runnerFinished |}.

Definition is_stop (c : Call) : bool :=
  match c with
  | CallStopEngine _ => true
  | _ => false
  end.

Definition is_start (c : Call) : bool :=
  match c with
  | CallStartEngine _ => true
  | _ => false
  end.

(** The effects [d], [n] times over. *)
Fixpoint repeat_effects (n : nat) (d : list Effect) : list Effect :=
  match n with
  | O => []
  | S n' => (d ++ repeat_effects n' d)%list
  end.

(** How many times the error signal of the runner is connected to the
    error slot. *)
Definition error_connections (l : list Connection) : nat :=
  length (filter (Connection_eqb err_conn) l).

Definition is_error_signal (c : Connection) : bool :=
  Signal_eqb (signal c) Runner_processErrorReceived.

(** The effects of one emission of the error signal: the effects of the
    slot, once per connection. *)
Definition error_effects (s : RunControl) (message : string)
    (error : ProcessError) (n : nat) : option (list Effect) :=
  match n with
  | O => Some []
  | S _ =>
      option_map
        (fun text =>
           repeat_effects n (AppendMessage text ErrorMessageFormat
                               :: pane_activation s))
        (classify s message error)
  end.

Definition is_Cancel (e : Effect) : bool :=
  match e with
  | Cancel => true
  | _ => false
  end.

(** [s'] continues the trace of [s] with effects that all satisfy [p]. *)
Definition only (p : Effect -> bool) (s s' : RunControl) : Prop :=
  exists d, trace s' = (trace s ++ d)%list /\ forallb p d = true.

(** What no slot changes. *)
Record frame (s s' : RunControl) : Prop := {
  frame_stopping : m_isStopping s' = m_isStopping s;
  frame_settings : m_settings s' = m_settings s;
  frame_pool : objectPool s' = objectPool s;
  frame_connected : forall c, connected c s' = true -> connected c s = true;
  frame_no_cancel : only (fun e => negb (is_Cancel e)) s s';
  frame_no_popup :
    m_isStopping s = true -> only (fun e => negb (is_Popup e)) s s'
}.

(** *** Reading aids for sessions *)

(** The calls of [startEngine] up to and including [run->start()], in
    program order, for a session whose settings object is [st]. *)
Definition startEngine_calls (s : RunControl) (st : ValgrindBaseSettings)
  : list Effect :=
  [EmitStarting;
   AddTimedTask (progressTitle (tool s)) "valgrind" 100;
   SetKeepOnFinish (progressTasks s) HideOnFinish;
   ReportStarted;
   SetWorkingDirectory (workingDirectory (base s));
   SetValgrindExecutable (valgrindExecutable st);
   SetValgrindArguments (genericToolArguments s ++ toolArguments (tool s));
   SetDebuggeeExecutable (runnable_debuggee (base s));
   SetDebuggeeArguments (runnable_debuggeeArgs (base s));
   SetEnvironment (m_environment s);
   SetConnectionParameters (connection_connParams (base s));
   SetUseStartupProject (negb (m_isCustomStart s));
   SetLocalRunMode (m_localRunMode s);
   RunnerStart].

Definition cancel_conn (fp : nat) : Connection :=
  {| signal := FutureProgress_canceled fp;
     slot := Slot_handleProgressCanceled |}.

Definition done_conn (fp : nat) : Connection :=
  {| signal := FutureProgress_finished fp;
     slot := Slot_handleProgressFinished |}.

(** The connections that [startEngine] makes, in program order. *)
Definition startEngine_connections (fp : nat) : list Connection :=
  [cancel_conn fp; done_conn fp; out_conn; err_conn; fin_conn].

(** The session when [run->start()] is entered. *)
Definition launched (s : RunControl) (st : ValgrindBaseSettings)
  : RunControl :=
  set_trace (trace s ++ startEngine_calls s st)
    (set_connections (connections s
                      ++ startEngine_connections (progressTasks s))
       (set_progressTasks (S (progressTasks s)) s)).

(** How many times a given connection was made and not undone. *)
Definition count_connection (c : Connection) (l : list Connection) : nat :=
  length (filter (Connection_eqb c) l).

(** How many calls of [startEngine] a history holds. *)
Definition starts (cs : list Call) : nat := length (filter is_start cs).

Definition is_runner_call (e : Effect) : bool :=
  match e with
  | SetWorkingDirectory _ | SetValgrindExecutable _ | SetValgrindArguments _
  | SetDebuggeeExecutable _ | SetDebuggeeArguments _ | SetEnvironment _
  | SetConnectionParameters _ | SetUseStartupProject _ | SetLocalRunMode _
  | RunnerStart | RunnerStop => true
  | _ => false
  end.

Definition is_AppendMessage (e : Effect) : bool :=
  match e with
  | AppendMessage _ _ => true
  | _ => false
  end.

Definition is_finished (e : Emission) : bool :=
  match e with
  | finished => true
  | _ => false
  end.

(** The last character of a text. *)
Fixpoint last_char (s : string) : option ascii :=
  match s with
  | EmptyString => None
  | String c EmptyString => Some c
  | String _ rest => last_char rest
  end.

(** Lines of process output, as the runner signals them and as the
    message sink receives them. *)
Definition output_signals (lines : list (string * OutputFormat))
  : list Emission :=
  map (fun l => processOutputReceived (fst l) (snd l)) lines.

Definition output_messages (lines : list (string * OutputFormat))
  : list Effect :=
  map (fun l => AppendMessage (fst l) (snd l)) lines.

(** The three calls of [handleProgressCanceled]. *)
Definition cancel_effects : list Effect :=
  [StopTool; ReportCanceled; ReportFinished].

(** The three calls of [runnerFinished]. *)
Definition finish_effects : list Effect :=
  [AppendMessage (tr "Analyzing finished." ++ LF) NormalMessageFormat;
   EmitFinished; ReportFinished].

(** The effects that slots perform. *)
Definition slot_effect (e : Effect) : bool :=
  match e with
  | AppendMessage _ _ | Popup NoModeSwitch | EmitFinished | ReportFinished
  | StopTool | ReportCanceled | Alert _ => true
  | _ => false
  end.

(** [s'] has the progress tasks of [s] and, the output and the finished
    connection apart, every connection as often as [s]. *)
Definition keeps_counts (s s' : RunControl) : Prop :=
  progressTasks s' = progressTasks s /\
  forall c,
    Connection_eqb c out_conn = false ->
    Connection_eqb c fin_conn = false ->
    count_connection c (connections s') = count_connection c (connections s).






End Valgrind.

(** ** Sample sessions *)

Module Sample.
Import QStr Valgrind.

Definition memcheck_base : AnalyzerRunControl :=
  {| workingDirectory := "/home/user/project";
     runnable_debuggee := "/home/user/project/app";
     runnable_debuggeeArgs := "--verbose";
     connection_connParams := "localhost" |}.

Definition memcheck_tool : ToolInterface :=
  {| progressTitle := "Analyzing Memory";
     toolArguments := ["--tool=memcheck"; "--xml=yes"] |}.

Definition configured : ValgrindBaseSettings :=
  {| valgrindExecutable := "/usr/bin/valgrind";
     selfModifyingCodeDetection := DetectSmcEverywhereButFile |}.

Definition unconfigured : ValgrindBaseSettings :=
  {| valgrindExecutable := EmptyString;
     selfModifyingCodeDetection := DetectSmcUnlisted 17 |}.

Definition pool_with_pane : ObjectPool :=
  [("ProjectExplorer", ForeignObject); ("AppOutputPane", OutputPaneObject)].

(** A session as the constructor leaves it, with the global settings. *)
Definition fresh : RunControl :=
  ValgrindRunControl memcheck_base memcheck_tool None (Some configured)
                     pool_with_pane.

(** The same, when no executable has been configured. *)
Definition fresh_unconfigured : RunControl :=
  ValgrindRunControl memcheck_base memcheck_tool None (Some unconfigured)
                     pool_with_pane.

(** The same, when the object pool holds no application output pane. *)
Definition fresh_without_pane : RunControl :=
  ValgrindRunControl memcheck_base memcheck_tool None (Some configured)
                     [("ProjectExplorer", ForeignObject)].

Definition spawned : RunnerStartReply :=
  {| emittedInStart := []; startReturns := true |}.

Definition spawn_failed : RunnerStartReply :=
  {| emittedInStart := [processErrorReceived "execve failed" FailedToStart];
     startReturns := false |}.

(** The state that a history leads to (the start state if it fails). *)
Definition after (cs : list Call) (s : RunControl) : RunControl :=
  match run cs s with
  | Some s' => s'
  | None => s
  end.

Definition running : RunControl := after [CallStartEngine spawned] fresh.

(** What the runner emits inside [stop()] when it kills the process. *)
Definition killed : list Emission :=
  [processErrorReceived "killed" Crashed; finished].

Definition stopped : RunControl := after [CallStopEngine killed] running.

Definition aftermath : list Call :=
  [Emitted (processOutputReceived "==1== done" StdErrFormat);
   Emitted (processErrorReceived "timed out" Timedout);
   Emitted finished;
   CallSetLocalRunMode Console].

End Sample.

(** * Properties *)

(** ** Strings *)

Module QStrFacts.
Import QStr Valgrind.

Lemma append_nil_r (s : string) : s ++ EmptyString = s.
Proof. induction s as [|c s IH]; simpl; [reflexivity | now rewrite IH]. Qed.

Lemma append_assoc (a b c : string) : (a ++ b) ++ c = a ++ (b ++ c).
Proof. induction a as [|x a IH]; simpl; [reflexivity | now rewrite IH]. Qed.

Lemma prefix_append (n rest : string) : prefix n (n ++ rest) = true.
Proof.
  induction n as [|c n IH]; simpl.
  - now destruct rest.
  - destruct (ascii_dec c c) as [_|ne]; [exact IH | now elim ne].
Qed.

Lemma contains_of_prefix (hay n : string) :
  prefix n hay = true -> contains hay n = true.
Proof. intro H. destruct hay; cbn [contains]; now rewrite H. Qed.

Lemma contains_append (pre n suf : string) :
  contains (pre ++ n ++ suf) n = true.
Proof.
  induction pre as [|c pre IH].
  - cbn [append]. apply contains_of_prefix. exact (prefix_append n suf).
  - cbn [append contains].
    destruct (prefix n (String c (pre ++ n ++ suf))); [reflexivity | exact IH].
Qed.

(** The text of the could-not-be-started message, with the markers filled. *)
Lemma could_not_be_started_text (valgrind message : string) :
  could_not_be_started valgrind message
  = "Error: " ++ DQUOTE ++ valgrind ++ DQUOTE
    ++ " could not be started: " ++ message ++ LF.
Proof.
  unfold could_not_be_started, arg2, multiArg, tr. simpl.
  rewrite append_nil_r.
  rewrite !append_assoc. reflexivity.
Qed.

Lemma starred_text (message : string) :
  starred message = "** " ++ message ++ " **" ++ LF.
Proof.
  unfold starred, arg, multiArg. simpl. reflexivity.
Qed.

Lemma contains_valgrind (valgrind message : string) :
  contains (could_not_be_started valgrind message) valgrind = true.
Proof.
  rewrite could_not_be_started_text.
  rewrite <- (append_assoc "Error: " DQUOTE).
  apply contains_append.
Qed.

Lemma contains_reason (valgrind message : string) :
  contains (could_not_be_started valgrind message) message = true.
Proof.
  rewrite could_not_be_started_text.
  rewrite <- !append_assoc.
  rewrite append_assoc.
  apply contains_append.
Qed.

Lemma contains_starred (message : string) :
  contains (starred message) message = true.
Proof. rewrite starred_text. apply contains_append. Qed.

End QStrFacts.

Module ValgrindFacts.
Import QStr Valgrind QStrFacts.
Local Open Scope list_scope.

(** ** Traces *)

Lemma skipn_exact {A : Type} (l d : list A) : skipn (length l) (l ++ d) = d.
Proof. induction l as [|x l IH]; simpl; [reflexivity | exact IH]. Qed.

Lemma added_of_trace (s s' : RunControl) (d : list Effect) :
  trace s' = trace s ++ d -> added s s' = d.
Proof. unfold added. intros ->. apply skipn_exact. Qed.


Lemma added_set_trace (s : RunControl) (d : list Effect) :
  added s (set_trace (trace s ++ d) s) = d.
Proof. now apply added_of_trace. Qed.

Lemma trace_perform (e : Effect) (s : RunControl) :
  trace (perform e s) = trace s ++ [e].
Proof. reflexivity. Qed.

(** ** The error slot *)

Lemma receiveProcessError_reads (message : string) (error : ProcessError)
    (s : RunControl) :
  receiveProcessError message error s
  = option_map
      (fun text =>
         set_trace (trace s ++ AppendMessage text ErrorMessageFormat
                                 :: pane_activation s) s)
      (classify s message error).
Proof.
  destruct s as [b t settings stopping custom mode env conns tasks pool tr].
  unfold receiveProcessError, classify, pane_activation, perform, set_trace.
  simpl.
  destruct error; simpl;
    try (destruct settings as [st|]; simpl; [|reflexivity];
         destruct (isEmpty (valgrindExecutable st)); simpl);
    destruct stopping; simpl; try reflexivity;
    destruct (qobject_cast_IOutputPane _); simpl;
    rewrite <- ?app_assoc; reflexivity.
Qed.

Lemma receiveProcessError_added (message : string) (error : ProcessError)
    (s s' : RunControl) :
  receiveProcessError message error s = Some s' ->
  exists text,
    classify s message error = Some text /\
    added s s' = AppendMessage text ErrorMessageFormat :: pane_activation s.
Proof.
  rewrite receiveProcessError_reads.
  destruct (classify s message error) as [text|]; simpl; [|discriminate].
  intros [= <-]. exists text. split; [reflexivity|].
  now apply added_of_trace.
Qed.

Lemma In_pane_activation (e : Effect) (s : RunControl) :
  In e (pane_activation s) <->
  e = Popup NoModeSwitch /\ m_isStopping s = false /\
  qobject_cast_IOutputPane (getObjectByName (objectPool s) "AppOutputPane")
  = true.
Proof.
  unfold pane_activation.
  destruct (m_isStopping s); simpl.
  - split; [tauto | now intros (_ & H & _)].
  - destruct (qobject_cast_IOutputPane _); simpl.
    + split; [intros [<-|[]]; auto | intros (-> & _); auto].
    + split; [tauto | now intros (_ & _ & H)].
Qed.

(** ** What the slots leave alone *)

Lemma only_refl (p : Effect -> bool) (s : RunControl) : only p s s.
Proof. exists []. now rewrite app_nil_r. Qed.

Lemma only_trans (p : Effect -> bool) (a b c : RunControl) :
  only p a b -> only p b c -> only p a c.
Proof.
  intros (d1 & E1 & F1) (d2 & E2 & F2). exists (d1 ++ d2). split.
  - now rewrite E2, E1, app_assoc.
  - now rewrite forallb_app, F1, F2.
Qed.

Lemma only_added (p : Effect -> bool) (s s' : RunControl) :
  only p s s' -> forallb p (added s s') = true.
Proof. intros (d & E & F). now rewrite (added_of_trace _ _ _ E). Qed.

Lemma frame_refl (s : RunControl) : frame s s.
Proof. split; auto using only_refl. Qed.

Lemma frame_trans (a b c : RunControl) : frame a b -> frame b c -> frame a c.
Proof.
  intros [A1 A2 A3 A4 A5 A6] [B1 B2 B3 B4 B5 B6]. split.
  - congruence.
  - congruence.
  - congruence.
  - auto.
  - eauto using only_trans.
  - intro H. eapply only_trans; [auto|]. apply B6. congruence.
Qed.

Lemma existsb_filter {A : Type} (f g : A -> bool) (l : list A) :
  existsb f (filter g l) = true -> existsb f l = true.
Proof.
  induction l as [|x l IH]; simpl; [easy|].
  destruct (g x); simpl.
  - destruct (f x); simpl; auto.
  - intro H. rewrite (IH H). apply orb_true_r.
Qed.

Lemma connected_disconnect (c : Connection) (sg : Signal) (sl : Slot)
    (s : RunControl) :
  connected c (disconnect sg sl s) = true -> connected c s = true.
Proof. unfold connected, disconnect. simpl. apply existsb_filter. Qed.

Lemma frame_runnerFinished (s : RunControl) : frame s (runnerFinished s).
Proof.
  split; try reflexivity.
  - intros c H. unfold runnerFinished in H.
    apply connected_disconnect in H. apply connected_disconnect in H.
    exact H.
  - eexists. split; [simpl; rewrite <- !app_assoc; reflexivity | reflexivity].
  - intros _.
    eexists. split; [simpl; rewrite <- !app_assoc; reflexivity | reflexivity].
Qed.

Lemma frame_set_trace (s : RunControl) (d : list Effect) :
  forallb (fun e => negb (is_Cancel e)) d = true ->
  (m_isStopping s = true -> forallb (fun e => negb (is_Popup e)) d = true) ->
  frame s (set_trace (trace s ++ d) s).
Proof.
  intros Hc Hp. split; try reflexivity; auto.
  - now exists d.
  - intro H. exists d. auto.
Qed.

Lemma frame_receiveProcessError (message : string) (error : ProcessError)
    (s s' : RunControl) :
  receiveProcessError message error s = Some s' -> frame s s'.
Proof.
  rewrite receiveProcessError_reads.
  destruct (classify s message error) as [text|]; simpl; [|discriminate].
  intros [= <-]. apply frame_set_trace; unfold pane_activation.
  - simpl. destruct (m_isStopping s); [reflexivity|].
    now destruct (qobject_cast_IOutputPane _).
  - intros ->. reflexivity.
Qed.

Lemma frame_invoke (sl : Slot) (e : Emission) (s s' : RunControl) :
  invoke sl e s = Some s' -> frame s s'.
Proof.
  destruct sl, e; simpl; try (intros [= <-]; apply frame_refl).
  - intros [= <-]. apply (frame_set_trace s [AppendMessage output format]);
      reflexivity.
  - apply frame_receiveProcessError.
  - intros [= <-]. apply frame_runnerFinished.
  - intros [= <-]. unfold handleProgressCanceled, perform. simpl.
    rewrite <- !app_assoc. simpl.
    apply (frame_set_trace s [StopTool; ReportCanceled; ReportFinished]);
      reflexivity.
  - intros [= <-]. apply (frame_set_trace s [Alert 3000]); reflexivity.
Qed.

(** A reflexive, transitive relation that every slot respects is respected
    by every emission. *)
Section Delivery.
Variable R : RunControl -> RunControl -> Prop.
Hypothesis R_refl : forall s, R s s.
Hypothesis R_trans : forall a b c, R a b -> R b c -> R a c.
Hypothesis R_invoke :
  forall sl e s s', invoke sl e s = Some s' -> R s s'.

Lemma deliver_respects (snapshot : list Connection) (e : Emission) :
  forall s s', deliver snapshot e s = Some s' -> R s s'.
Proof.
  induction snapshot as [|c rest IH]; simpl; intros s s' H.
  - injection H as <-. apply R_refl.
  - destruct (Signal_eqb (signal c) (signal_of e) && connected c s).
    + destruct (invoke (slot c) e s) as [s1|] eqn:E; simpl in H;
        [|discriminate].
      eapply R_trans; [eapply R_invoke; eassumption | now apply IH].
    + now apply IH.
Qed.

Lemma emit_respects (e : Emission) (s s' : RunControl) :
  emit e s = Some s' -> R s s'.
Proof. apply deliver_respects. Qed.

Lemma emit_all_respects (es : list Emission) :
  forall s s', emit_all es s = Some s' -> R s s'.
Proof.
  induction es as [|e es IH]; simpl; intros s s' H.
  - injection H as <-. apply R_refl.
  - destruct (emit e s) as [s1|] eqn:E; simpl in H; [|discriminate].
    eapply R_trans; [eapply emit_respects; eassumption | now apply IH].
Qed.
End Delivery.

Lemma frame_emit (e : Emission) (s s' : RunControl) :
  emit e s = Some s' -> frame s s'.
Proof.
  apply emit_respects;
    [apply frame_refl | apply frame_trans | apply frame_invoke].
Qed.

Lemma frame_emit_all (es : list Emission) (s s' : RunControl) :
  emit_all es s = Some s' -> frame s s'.
Proof.
  apply emit_all_respects;
    [apply frame_refl | apply frame_trans | apply frame_invoke].
Qed.

(** ** The argument of the self-modifying-code check *)

(** C1.  Whatever the self-modifying-code detection setting holds,
    [genericToolArguments] returns the single argument [--smc-check=]
    followed by the token of the table: none for DetectSmcNo, all for
    DetectSmcEverywhere, all-non-file for DetectSmcEverywhereButFile, stack
    for DetectSmcStackOnly and stack for every value that is none of the
    four. *)
Theorem genericToolArguments_mapping
    (s : RunControl) (st : ValgrindBaseSettings) :
  m_settings s = Some st ->
  exists token : string,
    genericToolArguments s = [("--smc-check=" ++ token)%string] /\
    token = match selfModifyingCodeDetection st with
            | DetectSmcNo => "none"
            | DetectSmcEverywhere => "all"
            | DetectSmcEverywhereButFile => "all-non-file"
            | DetectSmcStackOnly => "stack"
            | DetectSmcUnlisted _ => "stack"
            end.
Proof.
  intro H. unfold genericToolArguments. rewrite H.
  destruct (selfModifyingCodeDetection st); eexists; split; reflexivity.
Qed.

Lemma genericToolArguments_mapping_witness :
  exists token : string,
    genericToolArguments Sample.fresh_unconfigured
    = [("--smc-check=" ++ token)%string] /\
    token = "stack".
Proof.
  exact (genericToolArguments_mapping Sample.fresh_unconfigured
           Sample.unconfigured eq_refl).
Defined.

(** ** Classification of process errors *)

(** C3.  On a failed-to-start error the slot appends, whatever the
    stopping flag, exactly one message: the no-executable-set text when the
    executable path of the settings object is empty, and otherwise the
    could-not-be-started text, which contains that path and the reason
    passed with the signal. *)
Theorem failed_to_start_classification
    (s : RunControl) (st : ValgrindBaseSettings) (message : string) :
  m_settings s = Some st ->
  exists (s' : RunControl) (text : string),
    receiveProcessError message FailedToStart s = Some s' /\
    added s s' = AppendMessage text ErrorMessageFormat :: pane_activation s /\
    (valgrindExecutable st = EmptyString ->
     text = ("Error: no Valgrind executable set." ++ LF)%string) /\
    (valgrindExecutable st <> EmptyString ->
     text = ("Error: " ++ DQUOTE ++ valgrindExecutable st ++ DQUOTE
             ++ " could not be started: " ++ message ++ LF)%string /\
     contains text (valgrindExecutable st) = true /\
     contains text message = true).
Proof.
  intro H.
  destruct (receiveProcessError message FailedToStart s) as [s'|] eqn:E.
  - destruct (receiveProcessError_added _ _ _ _ E) as (text & C & A).
    exists s', text. split; [reflexivity|]. split; [exact A|].
    unfold classify in C. rewrite H in C. simpl in C.
    injection C as <-. split.
    + intros ->. reflexivity.
    + intro ne. destruct (valgrindExecutable st) as [|c exe] eqn:V;
        [now elim ne|]. simpl isEmpty. cbv iota.
      split; [apply could_not_be_started_text|].
      split; [apply contains_valgrind | apply contains_reason].
  - rewrite receiveProcessError_reads in E. unfold classify in E.
    rewrite H in E. discriminate E.
Qed.

Lemma failed_to_start_classification_witness :
  (exists (s' : RunControl) (text : string),
     receiveProcessError "execve failed" FailedToStart Sample.fresh = Some s' /\
     added Sample.fresh s'
     = AppendMessage text ErrorMessageFormat :: pane_activation Sample.fresh /\
     (valgrindExecutable Sample.configured = EmptyString ->
      text = ("Error: no Valgrind executable set." ++ LF)%string) /\
     (valgrindExecutable Sample.configured <> EmptyString ->
      text = ("Error: " ++ DQUOTE ++ valgrindExecutable Sample.configured
              ++ DQUOTE ++ " could not be started: " ++ "execve failed"
              ++ LF)%string /\
      contains text (valgrindExecutable Sample.configured) = true /\
      contains text "execve failed" = true)).
Proof.
  exact (failed_to_start_classification Sample.fresh Sample.configured
           "execve failed" eq_refl).
Defined.

(** C4.  An error other than failed-to-start that arrives while the
    stopping flag is unset is reported by the generic message, the raw
    diagnostic between two pairs of stars, which contains the diagnostic
    verbatim. *)
Theorem error_without_stop_is_generic
    (s : RunControl) (message : string) (error : ProcessError) :
  m_isStopping s = false ->
  error <> FailedToStart ->
  exists s' : RunControl,
    receiveProcessError message error s = Some s' /\
    added s s'
    = AppendMessage (starred message) ErrorMessageFormat
        :: pane_activation s /\
    starred message = ("** " ++ message ++ " **" ++ LF)%string /\
    contains (starred message) message = true.
Proof.
  intros Hs He.
  assert (C : classify s message error = Some (starred message)).
  { unfold classify. rewrite Hs. destruct error; try reflexivity.
    now elim He. }
  pose proof (receiveProcessError_reads message error s) as E.
  rewrite C in E. simpl in E.
  eexists. split; [exact E|].
  split; [now apply added_of_trace|].
  split; [apply starred_text | apply contains_starred].
Qed.

Lemma error_without_stop_is_generic_witness :
  exists s' : RunControl,
    receiveProcessError "segmentation fault" Crashed Sample.fresh = Some s' /\
    added Sample.fresh s'
    = AppendMessage (starred "segmentation fault") ErrorMessageFormat
        :: pane_activation Sample.fresh /\
    starred "segmentation fault"
    = ("** " ++ "segmentation fault" ++ " **" ++ LF)%string /\
    contains (starred "segmentation fault") "segmentation fault" = true.
Proof.
  apply (error_without_stop_is_generic Sample.fresh "segmentation fault"
           Crashed).
  - reflexivity.
  - discriminate.
Defined.

(** ** Steps of a history *)

(** With a settings object behind [m_settings] no slot dereferences null,
    so every emission is delivered to the end. *)
Lemma invoke_total (sl : Slot) (e : Emission) (s : RunControl) :
  m_settings s <> None -> exists s', invoke sl e s = Some s'.
Proof.
  intro H. destruct sl, e; simpl; eauto.
  rewrite receiveProcessError_reads. unfold classify.
  destruct (m_settings s); [|now elim H].
  destruct error; simpl; eauto.
Qed.

Lemma deliver_total (snapshot : list Connection) (e : Emission) :
  forall s, m_settings s <> None -> exists s', deliver snapshot e s = Some s'.
Proof.
  induction snapshot as [|c rest IH]; simpl; intros s H; eauto.
  destruct (Signal_eqb (signal c) (signal_of e) && connected c s); auto.
  destruct (invoke_total (slot c) e s H) as (s1 & E). rewrite E. simpl.
  apply IH. rewrite (frame_settings _ _ (frame_invoke _ _ _ _ E)). exact H.
Qed.

Lemma emit_all_total (es : list Emission) :
  forall s, m_settings s <> None -> exists s', emit_all es s = Some s'.
Proof.
  induction es as [|e es IH]; simpl; intros s H; eauto.
  destruct (deliver_total (connections s) e s H) as (s1 & E).
  unfold emit. rewrite E. simpl.
  apply IH. rewrite (frame_settings _ _ (frame_emit _ _ _ E)). exact H.
Qed.

(** [startEngine] in three parts: what it does before [run->start()], the
    signals delivered inside that call, and the reaction to its result. *)
Lemma startEngine_inv (reply : RunnerStartReply) (s : RunControl)
    (r : bool) (s' : RunControl) :
  startEngine reply s = Some (r, s') ->
  exists s0 s1 : RunControl,
    (m_isStopping s0 = m_isStopping s /\ m_settings s0 = m_settings s /\
     objectPool s0 = objectPool s /\
     only (fun e => negb (is_Cancel e) && negb (is_Popup e)) s s0) /\
    emit_all (emittedInStart reply) s0 = Some s1 /\
    r = startReturns reply /\
    s' = if startReturns reply then s1 else perform Cancel s1.
Proof.
  unfold startEngine. cbn [bind]. intro H.
  destruct (m_settings _) as [st|] eqn:S in H; [|discriminate H].
  cbn [bind] in H.
  match type of H with
  | context [emit_all _ ?x] => exists x; destruct (emit_all _ x) as [s1|]
  end; [|discriminate H].
  exists s1. cbn [bind] in H. split.
  - repeat split.
    eexists. split; [simpl; rewrite <- !app_assoc; reflexivity | reflexivity].
  - split; [reflexivity|].
    destruct (startReturns reply); simpl in H; injection H as <- <-; auto.
Qed.

Lemma startEngine_total (reply : RunnerStartReply) (s : RunControl) :
  m_settings s <> None ->
  exists s', startEngine reply s = Some (startReturns reply, s').
Proof.
  intro H. unfold startEngine. cbn [bind].
  destruct (m_settings _) as [st|] eqn:S; [|now elim H].
  cbn [bind].
  match goal with
  | |- context [emit_all ?es ?x] =>
      destruct (emit_all_total es x) as (s1 & E); [simpl; congruence|]
  end.
  rewrite E. cbn [bind].
  destruct (startReturns reply); simpl; eauto.
Qed.

(** From here on [startEngine] is used through the two lemmas above. *)
Global Opaque startEngine.

Lemma only_weaken (p q : Effect -> bool) (s s' : RunControl) :
  (forall e, p e = true -> q e = true) -> only p s s' -> only q s s'.
Proof.
  intros W (d & E & F). exists d. split; [exact E|].
  rewrite forallb_forall in *. auto.
Qed.

Lemma only_perform (p : Effect -> bool) (e : Effect) (s : RunControl) :
  p e = true -> only p s (perform e s).
Proof. intro H. exists [e]. simpl. now rewrite H. Qed.

(** What one step does to the members that error classification reads. *)
Lemma step_members (c : Call) (s s' : RunControl) :
  step c s = Some s' ->
  m_isStopping s' = (m_isStopping s || is_stop c)%bool /\
  m_settings s' = m_settings s /\
  objectPool s' = objectPool s.
Proof.
  destruct c as [reply|es|env|mode|e]; cbn [step is_stop]; intro H.
  - destruct (startEngine reply s) as [[r s1]|] eqn:E; [|discriminate H].
    cbn [bind snd] in H. injection H as <-.
    destruct (startEngine_inv _ _ _ _ E)
      as (s0 & s2 & (A1 & A2 & A3 & _) & EA & _ & ->).
    pose proof (frame_emit_all _ _ _ EA) as F.
    rewrite orb_false_r.
    destruct (startReturns reply); simpl;
      rewrite (frame_stopping _ _ F), (frame_settings _ _ F),
        (frame_pool _ _ F); auto.
  - unfold stopEngine in H. pose proof (frame_emit_all _ _ _ H) as F.
    rewrite (frame_stopping _ _ F), (frame_settings _ _ F),
      (frame_pool _ _ F). simpl. rewrite orb_true_r. auto.
  - injection H as <-. simpl. rewrite orb_false_r. auto.
  - injection H as <-. simpl. rewrite orb_false_r. auto.
  - pose proof (frame_emit _ _ _ H) as F.
    rewrite (frame_stopping _ _ F), (frame_settings _ _ F),
      (frame_pool _ _ F). rewrite orb_false_r. auto.
Qed.

Lemma step_total (c : Call) (s : RunControl) :
  m_settings s <> None -> exists s', step c s = Some s'.
Proof.
  intro H. destruct c as [reply|es|env|mode|e]; simpl; eauto.
  - destruct (startEngine_total reply s H) as (s' & ->). simpl. eauto.
  - unfold stopEngine. now apply emit_all_total.
  - unfold emit. now apply deliver_total.
Qed.

Lemma run_total (cs : list Call) :
  forall s, m_settings s <> None -> exists s', run cs s = Some s'.
Proof.
  induction cs as [|c cs IH]; simpl; intros s H; eauto.
  destruct (step_total c s H) as (s1 & E). rewrite E. simpl.
  apply IH. destruct (step_members _ _ _ E) as (_ & -> & _). exact H.
Qed.

(** The constructor falls back on the global settings, so a session
    built while those exist runs every history to its end. *)
Lemma constructor_has_settings
    (b : AnalyzerRunControl) (t : ToolInterface)
    (rc : option RunConfiguration) (g : ValgrindBaseSettings)
    (pool : ObjectPool) :
  m_settings (ValgrindRunControl b t rc (Some g) pool) <> None.
Proof.
  unfold ValgrindRunControl. cbn [m_settings].
  destruct rc as [rc|]; [|discriminate].
  destruct (extraAspect rc ANALYZER_VALGRIND_SETTINGS) as [a|];
    [|discriminate].
  destruct (qobject_cast_ValgrindBaseSettings (currentSettings a));
    discriminate.
Qed.

Lemma session_runs
    (b : AnalyzerRunControl) (t : ToolInterface)
    (rc : option RunConfiguration) (g : ValgrindBaseSettings)
    (pool : ObjectPool) (cs : list Call) :
  exists s', run cs (ValgrindRunControl b t rc (Some g) pool) = Some s'.
Proof. apply run_total, constructor_has_settings. Qed.

Lemma run_members (cs : list Call) :
  forall s s', run cs s = Some s' ->
  m_isStopping s' = (m_isStopping s || existsb is_stop cs)%bool /\
  m_settings s' = m_settings s /\
  objectPool s' = objectPool s.
Proof.
  induction cs as [|c cs IH]; simpl; intros s s' H.
  - injection H as <-. rewrite orb_false_r. auto.
  - destruct (step c s) as [s1|] eqn:E; [|discriminate H]. simpl in H.
    destruct (step_members _ _ _ E) as (A1 & A2 & A3).
    destruct (IH _ _ H) as (B1 & B2 & B3).
    rewrite B1, A1, B2, A2, B3, A3, orb_assoc. auto.
Qed.

(** Once the flag is set, no step activates the pane. *)
Lemma step_after_stop (c : Call) (s s' : RunControl) :
  m_isStopping s = true ->
  step c s = Some s' ->
  only (fun e => negb (is_Popup e)) s s'.
Proof.
  intros Hs H. destruct c as [reply|es|env|mode|e]; cbn [step] in H.
  - destruct (startEngine reply s) as [[r s1]|] eqn:E; [|discriminate H].
    cbn [bind snd] in H. injection H as <-.
    destruct (startEngine_inv _ _ _ _ E)
      as (s0 & s2 & (A1 & _ & _ & A4) & EA & _ & ->).
    eapply only_trans.
    { eapply only_weaken; [|exact A4].
      intros e He. now apply andb_true_iff in He. }
    eapply only_trans.
    { apply (frame_no_popup _ _ (frame_emit_all _ _ _ EA)). congruence. }
    destruct (startReturns reply);
      [apply only_refl | now apply only_perform].
  - unfold stopEngine in H.
    eapply only_trans;
      [|apply (frame_no_popup _ _ (frame_emit_all _ _ _ H)); reflexivity].
    exists [RunnerStop]. split; reflexivity.
  - injection H as <-. exists []. now rewrite app_nil_r.
  - injection H as <-. exists []. now rewrite app_nil_r.
  - now apply (frame_no_popup _ _ (frame_emit _ _ _ H)).
Qed.

Lemma run_after_stop (cs : list Call) :
  forall s s', m_isStopping s = true -> run cs s = Some s' ->
  only (fun e => negb (is_Popup e)) s s'.
Proof.
  induction cs as [|c cs IH]; simpl; intros s s' Hs H.
  - injection H as <-. apply only_refl.
  - destruct (step c s) as [s1|] eqn:E; [|discriminate H]. simpl in H.
    eapply only_trans; [eapply step_after_stop; eassumption|].
    apply IH; [|exact H].
    destruct (step_members _ _ _ E) as (-> & _). now rewrite Hs.
Qed.

(** ** Stop, then crash *)

Lemma stopEngine_sets (es : list Emission) (s s1 : RunControl) :
  stopEngine es s = Some s1 ->
  m_isStopping s1 = true /\ only (fun e => negb (is_Popup e)) s s1.
Proof.
  intro H. pose proof (step_members (CallStopEngine es) s s1 H) as (A & _).
  simpl in A. rewrite orb_true_r in A. split; [exact A|].
  unfold stopEngine in H.
  eapply only_trans;
    [|apply (frame_no_popup _ _ (frame_emit_all _ _ _ H)); reflexivity].
  exists [RunnerStop]. split; reflexivity.
Qed.

Lemma stopped_stays (es : list Emission) (s s1 : RunControl)
    (cs : list Call) (s2 : RunControl) :
  stopEngine es s = Some s1 -> run cs s1 = Some s2 -> m_isStopping s2 = true.
Proof.
  intros H1 H2. destruct (stopEngine_sets _ _ _ H1) as (A & _).
  destruct (run_members _ _ _ H2) as (-> & _). now rewrite A.
Qed.

Lemma crash_when_stopping (s : RunControl) (message : string) :
  m_isStopping s = true ->
  receiveProcessError message Crashed s
  = Some (perform (AppendMessage process_terminated ErrorMessageFormat) s).
Proof.
  intro H. rewrite receiveProcessError_reads.
  unfold classify, pane_activation. rewrite H. reflexivity.
Qed.

(** C2.  Once stop() has been called, whatever happens to the session
    afterwards, a process error of kind crashed makes the slot append the
    Process-terminated text and nothing else; in particular no generic
    message wrapping a diagnostic is appended. *)
Theorem crash_after_stop_is_benign
    (es : list Emission) (s s1 : RunControl) (cs : list Call)
    (s2 : RunControl) (message : string) :
  stopEngine es s = Some s1 ->
  run cs s1 = Some s2 ->
  exists s3 : RunControl,
    receiveProcessError message Crashed s2 = Some s3 /\
    (exists fmt,
        added s2 s3 = [AppendMessage ("Process terminated." ++ LF)%string fmt])
    /\
    (forall m fmt, ~ In (AppendMessage (starred m) fmt) (added s2 s3)).
Proof.
  intros H1 H2. pose proof (stopped_stays _ _ _ _ _ H1 H2) as F.
  eexists. split; [now apply crash_when_stopping|].
  rewrite (added_of_trace _ _ _ (trace_perform _ s2)). split.
  - eexists. reflexivity.
  - intros m fmt [E|[]].
    assert (E' : process_terminated = starred m) by congruence.
    rewrite starred_text in E'. discriminate E'.
Qed.

Lemma crash_after_stop_is_benign_witness :
  exists s3 : RunControl,
    receiveProcessError "killed" Crashed
      (perform RunnerStop (set_isStopping true Sample.fresh)) = Some s3 /\
    (exists fmt,
        added (perform RunnerStop (set_isStopping true Sample.fresh)) s3
        = [AppendMessage ("Process terminated." ++ LF)%string fmt]) /\
    (forall m fmt,
        ~ In (AppendMessage (starred m) fmt)
             (added (perform RunnerStop (set_isStopping true Sample.fresh))
                    s3)).
Proof.
  apply (crash_after_stop_is_benign
           [] Sample.fresh
           (perform RunnerStop (set_isStopping true Sample.fresh))
           [] (perform RunnerStop (set_isStopping true Sample.fresh))
           "killed"); reflexivity.
Defined.

(** The format tag of the message that C7 is about, at a session that was
    stopped and then saw its process crash: the tag is the error tag. *)
Lemma crash_after_stop_tag_counterexample :
  exists s1 s' : RunControl,
    stopEngine [] Sample.fresh = Some s1 /\
    receiveProcessError "killed" Crashed s1 = Some s' /\
    ~ (forall fmt,
          In (AppendMessage ("Process terminated." ++ LF)%string fmt)
             (added s1 s') ->
          fmt <> ErrorMessageFormat).
Proof.
  eexists. eexists. split; [reflexivity|]. split; [reflexivity|].
  intro H. apply (H ErrorMessageFormat); [|reflexivity].
  left. reflexivity.
Qed.

(** C7, as the code has it.  The Process-terminated message of a crash that
    follows stop() carries the error format tag, like every message that
    the error slot appends; what distinguishes it is its text and that the
    output pane is not activated. *)
Theorem crash_after_stop_keeps_error_tag
    (s : RunControl) (message : string) (s' : RunControl) :
  m_isStopping s = true ->
  receiveProcessError message Crashed s = Some s' ->
  added s s'
  = [AppendMessage ("Process terminated." ++ LF)%string ErrorMessageFormat] /\
  (forall (m : string) (e : ProcessError) (t t' : RunControl)
          (text : string) (fmt : OutputFormat),
      receiveProcessError m e t = Some t' ->
      In (AppendMessage text fmt) (added t t') -> fmt = ErrorMessageFormat).
Proof.
  intros Hs H. rewrite (crash_when_stopping s message Hs) in H.
  injection H as <-. split.
  - now apply added_of_trace.
  - intros m e t t' text fmt E I.
    destruct (receiveProcessError_added _ _ _ _ E) as (x & _ & A).
    rewrite A in I. destruct I as [I|I]; [congruence|].
    apply In_pane_activation in I. destruct I as (I & _). discriminate I.
Qed.

Lemma crash_after_stop_keeps_error_tag_witness :
  added (set_isStopping true Sample.fresh)
        (perform (AppendMessage process_terminated ErrorMessageFormat)
                 (set_isStopping true Sample.fresh))
  = [AppendMessage ("Process terminated." ++ LF)%string ErrorMessageFormat] /\
  (forall (m : string) (e : ProcessError) (t t' : RunControl)
          (text : string) (fmt : OutputFormat),
      receiveProcessError m e t = Some t' ->
      In (AppendMessage text fmt) (added t t') -> fmt = ErrorMessageFormat).
Proof.
  apply (crash_after_stop_keeps_error_tag
           (set_isStopping true Sample.fresh) "killed"); reflexivity.
Defined.

(** ** Activation of the output pane *)

(** The equivalence of C8 at a session that is not stopping and whose
    object pool holds no application output pane: no activation is
    requested although the flag is unset. *)
Lemma pane_activation_counterexample :
  exists s' : RunControl,
    receiveProcessError "segmentation fault" Crashed Sample.fresh_without_pane
    = Some s' /\
    ~ (In (Popup NoModeSwitch) (added Sample.fresh_without_pane s') <->
       m_isStopping Sample.fresh_without_pane = false).
Proof.
  eexists. split; [reflexivity|].
  intros [_ H]. specialize (H eq_refl).
  vm_compute in H. destruct H as [H|[]]. discriminate H.
Qed.

(** C8, as the code has it.  After appending its message the error slot
    requests the popup of the output pane, with the no-mode-switch option
    and once, exactly when the stopping flag is unset and the object
    registered as AppOutputPane is an output pane; with the flag set it
    requests nothing. *)
Theorem pane_activation_condition
    (s : RunControl) (message : string) (error : ProcessError)
    (s' : RunControl) :
  receiveProcessError message error s = Some s' ->
  (In (Popup NoModeSwitch) (added s s') <->
   m_isStopping s = false /\
   qobject_cast_IOutputPane (getObjectByName (objectPool s) "AppOutputPane")
   = true) /\
  (forall flag, In (Popup flag) (added s s') -> flag = NoModeSwitch) /\
  count is_Popup (added s s') <= 1 /\
  (m_isStopping s = true -> count is_Popup (added s s') = 0).
Proof.
  intro H. destruct (receiveProcessError_added _ _ _ _ H) as (text & _ & A).
  rewrite A. split; [split|split; [|split]].
  - intros [I|I]; [discriminate I|].
    apply In_pane_activation in I. tauto.
  - intros (I1 & I2). right. apply In_pane_activation. auto.
  - intros flag [I|I]; [discriminate I|].
    apply In_pane_activation in I. destruct I as (I & _). congruence.
  - unfold count, pane_activation. simpl.
    destruct (m_isStopping s); [simpl; lia|].
    destruct (qobject_cast_IOutputPane _); simpl; lia.
  - intro Hs. unfold count, pane_activation. rewrite Hs. reflexivity.
Qed.

Lemma pane_activation_condition_witness :
  (In (Popup NoModeSwitch)
      (added Sample.fresh
             (perform (Popup NoModeSwitch)
                (perform (AppendMessage (starred "segmentation fault")
                                        ErrorMessageFormat) Sample.fresh)))
   <->
   m_isStopping Sample.fresh = false /\
   qobject_cast_IOutputPane
     (getObjectByName (objectPool Sample.fresh) "AppOutputPane") = true) /\
  (forall flag,
      In (Popup flag)
         (added Sample.fresh
            (perform (Popup NoModeSwitch)
               (perform (AppendMessage (starred "segmentation fault")
                                       ErrorMessageFormat) Sample.fresh))) ->
      flag = NoModeSwitch) /\
  count is_Popup
    (added Sample.fresh
       (perform (Popup NoModeSwitch)
          (perform (AppendMessage (starred "segmentation fault")
                                  ErrorMessageFormat) Sample.fresh))) <= 1 /\
  (m_isStopping Sample.fresh = true ->
   count is_Popup
     (added Sample.fresh
        (perform (Popup NoModeSwitch)
           (perform (AppendMessage (starred "segmentation fault")
                                   ErrorMessageFormat) Sample.fresh))) = 0).
Proof.
  apply (pane_activation_condition Sample.fresh "segmentation fault" Crashed).
  reflexivity.
Defined.

(** ** Starting *)

Lemma count_none (p : Effect -> bool) (d : list Effect) :
  forallb (fun e => negb (p e)) d = true -> count p d = 0.
Proof.
  unfold count. induction d as [|e d IH]; simpl; [reflexivity|].
  destruct (p e); simpl; [discriminate | exact IH].
Qed.

(** C5.  [startEngine] returns what the runner's [start()] returned: when
    that is false the last thing it does is cancel the progress indicator,
    and when it is true it returns true without cancelling anything. *)
Theorem startEngine_reports_spawn (reply : RunnerStartReply) (s : RunControl) :
  m_settings s <> None ->
  exists s' : RunControl,
    startEngine reply s = Some (startReturns reply, s') /\
    (startReturns reply = false ->
     exists d, added s s' = d ++ [Cancel]) /\
    (startReturns reply = true -> count is_Cancel (added s s') = 0).
Proof.
  intro H. destruct (startEngine_total reply s H) as (s' & E).
  exists s'. split; [exact E|].
  destruct (startEngine_inv _ _ _ _ E) as (s0 & s1 & (_ & _ & _ & A) & EA & _ & ->).
  assert (B : only (fun e => negb (is_Cancel e)) s s1).
  { eapply only_trans; [|apply (frame_no_cancel _ _ (frame_emit_all _ _ _ EA))].
    eapply only_weaken; [|exact A].
    intros e He. now apply andb_true_iff in He. }
  split; intros ->.
  - destruct B as (d & T & _). exists d. apply added_of_trace.
    rewrite trace_perform, T. now rewrite app_assoc.
  - apply count_none. now apply only_added.
Qed.

Lemma startEngine_reports_spawn_witness :
  exists s' : RunControl,
    startEngine Sample.spawn_failed Sample.fresh
    = Some (startReturns Sample.spawn_failed, s') /\
    (startReturns Sample.spawn_failed = false ->
     exists d, added Sample.fresh s' = d ++ [Cancel]) /\
    (startReturns Sample.spawn_failed = true ->
     count is_Cancel (added Sample.fresh s') = 0).
Proof.
  apply (startEngine_reports_spawn Sample.spawn_failed Sample.fresh).
  discriminate.
Defined.

(** ** The stopping flag *)

(** C9.  The constructor leaves the stopping flag false; a step of a
    session changes the flag only by setting it, and only when the step is
    a call of [stopEngine]; so after [stopEngine] the flag is set in every
    later state of the session, every classification made there is the
    one for a stopping session, and no effect from the call of
    [stopEngine] onwards activates the pane. *)
Theorem stopping_flag_is_set_once :
  (forall b t rc globalSettings pool,
      m_isStopping (ValgrindRunControl b t rc globalSettings pool) = false) /\
  (forall c s s',
      step c s = Some s' ->
      m_isStopping s' = (m_isStopping s || is_stop c)%bool) /\
  (forall es s s1 cs s2,
      stopEngine es s = Some s1 ->
      run cs s1 = Some s2 ->
      m_isStopping s2 = true /\
      (forall message,
          classify s2 message Crashed = Some process_terminated) /\
      pane_activation s2 = [] /\
      count is_Popup (added s s2) = 0).
Proof.
  split; [reflexivity|]. split.
  - intros c s s' H. now destruct (step_members _ _ _ H).
  - intros es s s1 cs s2 H1 H2.
    pose proof (stopped_stays _ _ _ _ _ H1 H2) as F.
    split; [exact F|]. split; [|split].
    + intro message. unfold classify. now rewrite F.
    + unfold pane_activation. now rewrite F.
    + apply count_none. apply only_added.
      destruct (stopEngine_sets _ _ _ H1) as (A & B).
      eapply only_trans; [exact B|]. now apply run_after_stop with cs.
Qed.

Lemma stopping_flag_is_set_once_witness :
  m_isStopping (Sample.after Sample.aftermath Sample.stopped) = true /\
  (forall message,
      classify (Sample.after Sample.aftermath Sample.stopped) message Crashed
      = Some process_terminated) /\
  pane_activation (Sample.after Sample.aftermath Sample.stopped) = [] /\
  count is_Popup
    (added Sample.running (Sample.after Sample.aftermath Sample.stopped)) = 0.
Proof.
  apply (proj2 (proj2 stopping_flag_is_set_once)
           Sample.killed Sample.running Sample.stopped
           Sample.aftermath (Sample.after Sample.aftermath Sample.stopped));
    vm_compute; reflexivity.
Defined.

(** ** The connection table *)

Lemma Signal_eqb_eq (a b : Signal) : Signal_eqb a b = true <-> a = b.
Proof.
  destruct a, b; simpl; try (split; [discriminate | congruence]);
    try (split; reflexivity);
    rewrite Nat.eqb_eq; split; congruence.
Qed.

Lemma Slot_eqb_eq (a b : Slot) : Slot_eqb a b = true <-> a = b.
Proof.
  destruct a, b; simpl; try (split; [discriminate | congruence]);
    split; reflexivity.
Qed.

Lemma Connection_eqb_eq (a b : Connection) :
  Connection_eqb a b = true <-> a = b.
Proof.
  unfold Connection_eqb. rewrite andb_true_iff, Signal_eqb_eq, Slot_eqb_eq.
  destruct a, b; simpl. split; [intros (-> & ->); reflexivity|].
  intros [= -> ->]. auto.
Qed.

Lemma Connection_eqb_sym (a b : Connection) :
  Connection_eqb a b = Connection_eqb b a.
Proof.
  destruct (Connection_eqb a b) eqn:E1, (Connection_eqb b a) eqn:E2;
    try reflexivity.
  - apply Connection_eqb_eq in E1. subst b.
    assert (Connection_eqb a a = true) by now apply Connection_eqb_eq.
    congruence.
  - apply Connection_eqb_eq in E2. subst b.
    assert (Connection_eqb a a = true) by now apply Connection_eqb_eq.
    congruence.
Qed.

Lemma existsb_filtered_out (c : Connection) (l : list Connection) :
  existsb (Connection_eqb c)
          (filter (fun x => negb (Connection_eqb x c)) l) = false.
Proof.
  induction l as [|x l IH]; simpl; [reflexivity|].
  destruct (Connection_eqb x c) eqn:E; simpl; [exact IH|].
  now rewrite Connection_eqb_sym, E, IH.
Qed.

Lemma not_connected_disconnect (c : Connection) (sg : Signal) (sl : Slot)
    (s : RunControl) :
  connected c s = false -> connected c (disconnect sg sl s) = false.
Proof.
  intro H. destruct (connected c (disconnect sg sl s)) eqn:E; [|reflexivity].
  apply connected_disconnect in E. congruence.
Qed.

Lemma finished_detached (s : RunControl) :
  connected fin_conn (runnerFinished s) = false.
Proof. apply existsb_filtered_out. Qed.

Lemma output_detached (s : RunControl) :
  connected out_conn (runnerFinished s) = false.
Proof.
  unfold runnerFinished. apply not_connected_disconnect.
  apply existsb_filtered_out.
Qed.

(** One emission of the runner's finished signal calls [runnerFinished]
    once if it is connected, however many times it was connected, and not
    at all otherwise. *)
Lemma deliver_finished (snapshot : list Connection) :
  forall s,
    deliver snapshot finished s
    = Some (if existsb (Connection_eqb fin_conn) snapshot
               && connected fin_conn s
            then runnerFinished s else s).
Proof.
  induction snapshot as [|[sg sl] rest IH]; intro s; [reflexivity|].
  cbn [deliver signal slot signal_of existsb].
  destruct sg; cbn [Signal_eqb andb];
    try (rewrite IH; reflexivity).
  destruct sl; cbn [invoke bind];
    try (destruct (connected _ s); rewrite IH; reflexivity).
  change {| signal := Runner_finished; slot := Slot_runnerFinished |}
    with fin_conn.
  replace (Connection_eqb fin_conn fin_conn) with true by reflexivity.
  cbn [orb andb].
  destruct (connected fin_conn s) eqn:C.
  - rewrite IH, finished_detached, andb_false_r. reflexivity.
  - rewrite IH, C, andb_false_r. reflexivity.
Qed.

Lemma emit_finished (s : RunControl) :
  emit finished s
  = Some (if connected fin_conn s then runnerFinished s else s).
Proof.
  unfold emit. rewrite deliver_finished. unfold connected.
  now rewrite andb_diag.
Qed.



(** ** Completion *)

(** The guard against a repeated completion is the connection table and
    not the body of the slot: run twice in a row, the body appends its
    message twice. *)
Remark runnerFinished_body_repeats (s : RunControl) :
  added s (runnerFinished (runnerFinished s))
  = [AppendMessage ("Analyzing finished." ++ LF)%string NormalMessageFormat;
     EmitFinished; ReportFinished;
     AppendMessage ("Analyzing finished." ++ LF)%string NormalMessageFormat;
     EmitFinished; ReportFinished].
Proof.
  apply added_of_trace. simpl. rewrite <- !app_assoc. reflexivity.
Qed.




(** ** Errors after completion *)

Lemma deliver_error (message : string) (error : ProcessError)
    (snapshot : list Connection) :
  forall s,
    (existsb (Connection_eqb err_conn) snapshot = true ->
     connected err_conn s = true) ->
    deliver snapshot (processErrorReceived message error) s
    = option_map (fun d => set_trace (trace s ++ d) s)
        (error_effects s message error (error_connections snapshot)).
Proof.
  induction snapshot as [|[sg sl] rest IH]; intros s Hc.
  - simpl. rewrite app_nil_r. now destruct s.
  - cbn [deliver signal slot signal_of].
    unfold error_connections in *. cbn [filter existsb] in *.
    destruct sg, sl;
      cbn [Connection_eqb Signal_eqb Slot_eqb signal slot err_conn
           andb orb invoke bind] in *;
      try (apply IH; exact Hc);
      try (match goal with
           | |- context [connected ?c s] => destruct (connected c s)
           end; apply IH; exact Hc).
    change {| signal := Runner_processErrorReceived;
              slot := Slot_receiveProcessError |} with err_conn in *.
    rewrite (Hc eq_refl). cbn [length error_effects].
    rewrite receiveProcessError_reads.
    destruct (classify s message error) as [text|] eqn:C; [|reflexivity].
    cbn [option_map bind].
    rewrite IH by (intros _; exact (Hc eq_refl)).
    assert (C' : forall t, classify (set_trace t s) message error = Some text)
      by (intro t; exact C).
    destruct (length (filter (Connection_eqb err_conn) rest)) as [|k].
    + cbn [error_effects option_map repeat_effects].
      rewrite !app_nil_r. reflexivity.
    + cbn [error_effects]. rewrite C'. cbn [option_map].
      f_equal. unfold set_trace. cbn [trace]. f_equal.
      change (pane_activation _) with (pane_activation s).
      cbn [repeat_effects]. now rewrite <- !app_assoc.
Qed.

Lemma emit_error (message : string) (error : ProcessError) (s : RunControl) :
  emit (processErrorReceived message error) s
  = option_map (fun d => set_trace (trace s ++ d) s)
      (error_effects s message error (error_connections (connections s))).
Proof. apply deliver_error. intro H. exact H. Qed.

Lemma added_emit_error (message : string) (error : ProcessError)
    (s : RunControl) :
  option_map (added s) (emit (processErrorReceived message error) s)
  = error_effects s message error (error_connections (connections s)).
Proof.
  rewrite emit_error.
  destruct (error_effects _ _ _ _) as [d|]; [|reflexivity].
  simpl. f_equal. now apply added_of_trace.
Qed.

(** [runnerFinished] removes no connection of the error signal. *)
Lemma error_signal_kept (s : RunControl) :
  filter is_error_signal (connections (runnerFinished s))
  = filter is_error_signal (connections s).
Proof.
  unfold runnerFinished, disconnect. cbn [connections set_connections perform
                                           set_trace].
  induction (connections s) as [|[sg sl] l IH]; [reflexivity|].
  destruct sg; destruct sl; simpl; rewrite ?IH; try reflexivity.
Qed.

Lemma error_connections_kept (s : RunControl) :
  error_connections (connections (runnerFinished s))
  = error_connections (connections s).
Proof.
  unfold error_connections, runnerFinished, disconnect.
  cbn [connections set_connections perform set_trace].
  induction (connections s) as [|[sg sl] l IH]; [reflexivity|].
  destruct sg; destruct sl; simpl; rewrite ?IH; try reflexivity.
Qed.

(** C10.  [runnerFinished] detaches the output and the finished
    connections and leaves every connection of the error signal in place;
    an error signal emitted after it is classified and reported by
    exactly the effects it would have caused before, and so is a direct
    call of the slot. *)
Theorem error_reports_survive_completion
    (s : RunControl) (message : string) (error : ProcessError) :
  connected out_conn (runnerFinished s) = false /\
  connected fin_conn (runnerFinished s) = false /\
  filter is_error_signal (connections (runnerFinished s))
  = filter is_error_signal (connections s) /\
  option_map (added (runnerFinished s))
    (emit (processErrorReceived message error) (runnerFinished s))
  = option_map (added s) (emit (processErrorReceived message error) s) /\
  option_map (added (runnerFinished s))
    (receiveProcessError message error (runnerFinished s))
  = option_map (added s) (receiveProcessError message error s) /\
  (connected err_conn s = true ->
   m_settings s <> None ->
   exists (s' : RunControl) (text : string) (rest : list Effect),
     emit (processErrorReceived message error) (runnerFinished s) = Some s' /\
     classify s message error = Some text /\
     added (runnerFinished s) s'
     = AppendMessage text ErrorMessageFormat :: rest).
Proof.
  split; [apply output_detached|]. split; [apply finished_detached|].
  split; [apply error_signal_kept|]. split; [|split].
  - rewrite !added_emit_error, error_connections_kept. reflexivity.
  - rewrite !receiveProcessError_reads.
    change (classify (runnerFinished s) message error)
      with (classify s message error).
    change (pane_activation (runnerFinished s)) with (pane_activation s).
    destruct (classify s message error) as [text|]; [|reflexivity].
    cbn [option_map]. now rewrite !added_set_trace.
  - intros Hc Hs.
    assert (N : exists k, error_connections (connections s) = S k).
    { unfold error_connections, connected in *.
      induction (connections s) as [|c l IH]; [discriminate Hc|].
      simpl in *. destruct (Connection_eqb err_conn c); simpl; eauto. }
    destruct N as (k & N).
    assert (C : exists text, classify s message error = Some text).
    { unfold classify. destruct (m_settings s); [|now elim Hs].
      destruct error; simpl; eauto. }
    destruct C as (text & C).
    pose proof (emit_error message error (runnerFinished s)) as E.
    rewrite error_connections_kept, N in E.
    cbn [error_effects] in E.
    change (classify (runnerFinished s) message error)
      with (classify s message error) in E.
    rewrite C in E. cbn [option_map] in E.
    eexists. exists text. eexists.
    split; [exact E|]. split; [exact C|].
    apply added_of_trace. cbn [trace set_trace repeat_effects].
    rewrite <- app_comm_cons. reflexivity.
Qed.

Lemma error_reports_survive_completion_witness :
  exists (s' : RunControl) (text : string) (rest : list Effect),
    emit (processErrorReceived "segmentation fault" Crashed)
         (runnerFinished Sample.running) = Some s' /\
    classify Sample.running "segmentation fault" Crashed = Some text /\
    added (runnerFinished Sample.running) s'
    = AppendMessage text ErrorMessageFormat :: rest.
Proof.
  apply (error_reports_survive_completion
           Sample.running "segmentation fault" Crashed).
  - vm_compute. reflexivity.
  - vm_compute. discriminate.
Defined.

End ValgrindFacts.

(** * Further properties of the run control *)

Module SessionFacts.
Import QStr Valgrind QStrFacts ValgrindFacts.
Local Open Scope list_scope.

(** ** The shape of [startEngine] *)

Local Transparent startEngine.

Lemma startEngine_shape (reply : RunnerStartReply) (s : RunControl)
    (st : ValgrindBaseSettings) :
  m_settings s = Some st ->
  startEngine reply s
  = (s1 <- emit_all (emittedInStart reply) (launched s st) ;;
     if negb (startReturns reply)
     then Some (false, perform Cancel s1)
     else Some (true, s1)).
Proof.
  intro H. unfold startEngine. cbn [bind].
  destruct (m_settings _) as [st'|] eqn:S.
  2:{ cbn [m_settings perform set_trace connect set_connections
           set_progressTasks] in S. congruence. }
  assert (st' = st) as ->.
  { cbn [m_settings perform set_trace connect set_connections
         set_progressTasks] in S. congruence. }
  cbn [bind].
  match goal with
  | |- context [emit_all _ ?x] =>
      replace x with (launched s st); [reflexivity|]
  end.
  destruct s as [b t settings stopping custom mode env conns tasks pool tr].
  cbv beta iota zeta delta
    [launched startEngine_calls startEngine_connections perform connect
     set_trace set_connections set_progressTasks genericToolArguments
     base tool m_settings m_isStopping m_isCustomStart m_localRunMode
     m_environment connections progressTasks objectPool trace].
  f_equal; rewrite <- ?app_assoc; reflexivity.
Qed.

Lemma startEngine_null (reply : RunnerStartReply) (s : RunControl) :
  m_settings s = None -> startEngine reply s = None.
Proof.
  intro H. unfold startEngine. cbn [bind].
  destruct (m_settings _) as [st'|] eqn:S; [|reflexivity].
  cbn [m_settings perform set_trace connect set_connections
       set_progressTasks] in S. congruence.
Qed.

Global Opaque startEngine.

(** ** What slots can add to the trace *)

Lemma only_invoke (sl : Slot) (e : Emission) (s s' : RunControl) :
  invoke sl e s = Some s' -> only slot_effect s s'.
Proof.
  destruct sl, e; simpl; try (intros [= <-]; apply only_refl).
  - intros [= <-]. now apply only_perform.
  - rewrite receiveProcessError_reads.
    destruct (classify s message error) as [text|]; simpl; [|discriminate].
    intros [= <-]. eexists. split; [reflexivity|].
    unfold pane_activation. simpl.
    destruct (m_isStopping s); [reflexivity|].
    match goal with |- context [qobject_cast_IOutputPane ?o] =>
      destruct (qobject_cast_IOutputPane o) end; reflexivity.
  - intros [= <-]. exists finish_effects. split; [|reflexivity].
    simpl. rewrite <- !app_assoc. reflexivity.
  - intros [= <-]. exists cancel_effects. split; [|reflexivity].
    simpl. rewrite <- !app_assoc. reflexivity.
  - intros [= <-]. now apply only_perform.
Qed.

Lemma only_emit_all (es : list Emission) (s s' : RunControl) :
  emit_all es s = Some s' -> only slot_effect s s'.
Proof.
  apply emit_all_respects;
    [apply only_refl | apply only_trans | apply only_invoke].
Qed.

Lemma filter_none {A : Type} (p q : A -> bool) (l : list A) :
  (forall x, q x = true -> p x = false) ->
  forallb q l = true -> filter p l = [].
Proof.
  intros Hpq. induction l as [|x l IH]; simpl; [reflexivity|].
  intro H. apply andb_true_iff in H. destruct H as (H1 & H2).
  rewrite (Hpq x H1). auto.
Qed.

(** ** Starting *)

(** X1.  What the runner is told by one call of [startEngine]: the nine
    settings, each once and in this order, with the generic arguments in
    front of the arguments of the tool, and then the start; nothing that
    happens later inside [startEngine] calls the runner again. *)
Theorem startEngine_runner_calls
    (reply : RunnerStartReply) (s : RunControl) (st : ValgrindBaseSettings) :
  m_settings s = Some st ->
  exists s' : RunControl,
    startEngine reply s = Some (startReturns reply, s') /\
    filter is_runner_call (added s s')
    = [SetWorkingDirectory (workingDirectory (base s));
       SetValgrindExecutable (valgrindExecutable st);
       SetValgrindArguments
         (genericToolArguments s ++ toolArguments (tool s));
       SetDebuggeeExecutable (executable s);
       SetDebuggeeArguments (runnable_debuggeeArgs (base s));
       SetEnvironment (m_environment s);
       SetConnectionParameters (connection_connParams (base s));
       SetUseStartupProject (negb (m_isCustomStart s));
       SetLocalRunMode (m_localRunMode s);
       RunnerStart].
Proof.
  intro H. rewrite (startEngine_shape reply s st H).
  destruct (emit_all (emittedInStart reply) (launched s st)) as [s1|] eqn:E.
  2:{ destruct (emit_all_total (emittedInStart reply) (launched s st))
        as (x & Ex); [simpl; congruence | congruence]. }
  cbn [bind]. destruct (only_emit_all _ _ _ E) as (d & T & F).
  assert (N : filter is_runner_call d = []).
  { apply (filter_none _ slot_effect); [|exact F].
    intros [] Hx; try reflexivity; discriminate Hx. }
  destruct (startReturns reply); cbn [negb]; eexists; (split; [reflexivity|]).
  - rewrite (added_of_trace s s1 (startEngine_calls s st ++ d)).
    + rewrite filter_app, N. reflexivity.
    + rewrite T. simpl. now rewrite <- app_assoc.
  - rewrite (added_of_trace s _ (startEngine_calls s st ++ d ++ [Cancel])).
    + rewrite !filter_app, N. reflexivity.
    + rewrite trace_perform, T. simpl. now rewrite <- !app_assoc.
Qed.

Lemma startEngine_runner_calls_witness :
  exists s' : RunControl,
    startEngine Sample.spawn_failed Sample.fresh
    = Some (startReturns Sample.spawn_failed, s') /\
    filter is_runner_call (added Sample.fresh s')
    = [SetWorkingDirectory "/home/user/project";
       SetValgrindExecutable "/usr/bin/valgrind";
       SetValgrindArguments
         ["--smc-check=all-non-file"; "--tool=memcheck"; "--xml=yes"];
       SetDebuggeeExecutable "/home/user/project/app";
       SetDebuggeeArguments "--verbose";
       SetEnvironment [];
       SetConnectionParameters "localhost";
       SetUseStartupProject true;
       SetLocalRunMode Gui;
       RunnerStart].
Proof.
  exact (startEngine_runner_calls Sample.spawn_failed Sample.fresh
           Sample.configured eq_refl).
Defined.

(** X2.  [startEngine] runs to its end exactly when the session has a
    settings object: with a null [m_settings] it stops at the dereference
    in front of [setValgrindExecutable], whatever the runner would have
    answered. *)
Theorem startEngine_needs_settings
    (reply : RunnerStartReply) (s : RunControl) :
  startEngine reply s = None <-> m_settings s = None.
Proof.
  split.
  - intro H. destruct (m_settings s) as [st|] eqn:S; [|reflexivity].
    destruct (startEngine_total reply s) as (s' & E); congruence.
  - apply startEngine_null.
Qed.

(** X3.  The error slot fails only on the one path that dereferences the
    settings: a failed-to-start error in a session without settings object.
    Every other error kind is reported also when [m_settings] is null. *)
Theorem receiveProcessError_needs_settings
    (message : string) (error : ProcessError) (s : RunControl) :
  receiveProcessError message error s = None <->
  error = FailedToStart /\ m_settings s = None.
Proof.
  rewrite receiveProcessError_reads. unfold classify.
  destruct error; simpl;
    try (split; [discriminate | intros (E & _); discriminate E]).
  destruct (m_settings s); simpl.
  - split; [discriminate | intros (_ & E); discriminate E].
  - split; auto.
Qed.

(** ** Delivery to a slot that adds the same effects each time *)

Lemma Signal_eqb_refl (a : Signal) : Signal_eqb a a = true.
Proof. now apply Signal_eqb_eq. Qed.

Lemma set_trace_same (s : RunControl) : set_trace (trace s ++ []) s = s.
Proof. rewrite app_nil_r. now destruct s. Qed.

Lemma count_connection_zero (c : Connection) (s : RunControl) :
  connected c s = false -> count_connection c (connections s) = 0.
Proof.
  unfold connected, count_connection.
  induction (connections s) as [|x l IH]; simpl; [reflexivity|].
  destruct (Connection_eqb c x); simpl; [discriminate | exact IH].
Qed.

Lemma connected_of_count (c : Connection) (s : RunControl) :
  count_connection c (connections s) <> 0 -> connected c s = true.
Proof.
  intro H. destruct (connected c s) eqn:E; [reflexivity|].
  now apply count_connection_zero in E.
Qed.

Section Uniform.
Variable e : Emission.
Variable sl0 : Slot.
Variable d : list Effect.
Hypothesis hit :
  forall s, invoke sl0 e s = Some (set_trace (trace s ++ d) s).
Hypothesis miss : forall sl s, sl <> sl0 -> invoke sl e s = Some s.

Lemma deliver_uniform (snapshot : list Connection) :
  forall s,
    (existsb (Connection_eqb {| signal := signal_of e; slot := sl0 |})
             snapshot = true ->
     connected {| signal := signal_of e; slot := sl0 |} s = true) ->
    deliver snapshot e s
    = Some (set_trace
              (trace s
               ++ repeat_effects
                    (count_connection
                       {| signal := signal_of e; slot := sl0 |} snapshot) d)
              s).
Proof.
  set (c0 := {| signal := signal_of e; slot := sl0 |}).
  induction snapshot as [|c rest IH]; intros s Hc.
  - simpl. now rewrite set_trace_same.
  - cbn [deliver]. unfold count_connection in *. cbn [filter existsb] in *.
    destruct (Connection_eqb c0 c) eqn:E.
    + apply Connection_eqb_eq in E. subst c. cbn [c0 signal slot].
      rewrite Signal_eqb_refl. fold c0. rewrite (Hc eq_refl). cbn [andb].
      rewrite hit. cbn [bind]. rewrite IH by (intros _; exact (Hc eq_refl)).
      cbn [length repeat_effects]. f_equal.
      unfold set_trace. cbn [trace]. now rewrite <- app_assoc.
    + assert (M : forall x, invoke (slot c) e x = Some x
                  \/ Signal_eqb (signal c) (signal_of e) = false).
      { intro x. destruct (Signal_eqb (signal c) (signal_of e)) eqn:G;
          [left | now right].
        apply miss. intro Hsl. apply Signal_eqb_eq in G.
        assert (Connection_eqb c0 c = true); [|congruence].
        apply Connection_eqb_eq. destruct c. simpl in *. now subst. }
      destruct (M s) as [M1|M1].
      * rewrite M1. cbn [bind].
        destruct (Signal_eqb _ _ && connected c s); now apply IH.
      * rewrite M1. cbn [andb]. now apply IH.
Qed.

Lemma emit_uniform (s : RunControl) :
  emit e s
  = Some (set_trace
            (trace s
             ++ repeat_effects
                  (count_connection
                     {| signal := signal_of e; slot := sl0 |} (connections s))
                  d)
            s).
Proof. apply deliver_uniform. intro H. exact H. Qed.

End Uniform.

Lemma emit_output (output : string) (format : OutputFormat)
    (s : RunControl) :
  emit (processOutputReceived output format) s
  = Some (set_trace
            (trace s
             ++ repeat_effects (count_connection out_conn (connections s))
                  [AppendMessage output format]) s).
Proof.
  apply (emit_uniform (processOutputReceived output format)
           Slot_receiveProcessOutput).
  - reflexivity.
  - intros sl x H. destruct sl; try reflexivity. now elim H.
Qed.

Lemma emit_canceled (fp : nat) (s : RunControl) :
  emit (progressCanceled fp) s
  = Some (set_trace
            (trace s
             ++ repeat_effects
                  (count_connection (cancel_conn fp) (connections s))
                  cancel_effects) s).
Proof.
  apply (emit_uniform (progressCanceled fp) Slot_handleProgressCanceled).
  - intro x. simpl. f_equal. destruct x. unfold handleProgressCanceled,
      perform, set_trace. simpl. now rewrite <- !app_assoc.
  - intros sl x H. destruct sl; try reflexivity. now elim H.
Qed.

(** ** Which steps change the connection table *)

Lemma invoke_keeps_connections (sl : Slot) (e : Emission)
    (s s' : RunControl) :
  is_finished e = false ->
  invoke sl e s = Some s' -> connections s' = connections s.
Proof.
  intro F. destruct sl, e; simpl; try discriminate F;
    try (intros [= <-]; reflexivity).
  rewrite receiveProcessError_reads.
  destruct (classify s message error); simpl; [|discriminate].
  intros [= <-]. reflexivity.
Qed.

Lemma deliver_keeps_connections (e : Emission) (snapshot : list Connection) :
  is_finished e = false ->
  forall s s', deliver snapshot e s = Some s' ->
               connections s' = connections s.
Proof.
  intro F. induction snapshot as [|c rest IH]; simpl; intros s s' H.
  - now injection H as <-.
  - destruct (Signal_eqb (signal c) (signal_of e) && connected c s).
    + destruct (invoke (slot c) e s) as [s1|] eqn:E; [|discriminate H].
      simpl in H. rewrite (IH _ _ H).
      now apply invoke_keeps_connections with (sl := slot c) (e := e).
    + now apply IH.
Qed.

Lemma emit_all_keeps_connections (es : list Emission) :
  forallb (fun e => negb (is_finished e)) es = true ->
  forall s s', emit_all es s = Some s' -> connections s' = connections s.
Proof.
  induction es as [|e es IH]; simpl; intros F s s' H.
  - now injection H as <-.
  - apply andb_true_iff in F. destruct F as (F1 & F2).
    destruct (emit e s) as [s1|] eqn:E; [|discriminate H]. simpl in H.
    rewrite (IH F2 _ _ H).
    apply (deliver_keeps_connections e (connections s)); [|exact E].
    now destruct (is_finished e).
Qed.

Lemma step_keeps_disconnected (k : Connection) (c : Call)
    (s s' : RunControl) :
  is_start c = false ->
  step c s = Some s' ->
  connected k s = false -> connected k s' = false.
Proof.
  intros Hc H D.
  destruct (connected k s') eqn:E; [|reflexivity].
  destruct c as [reply|es|env|mode|e]; cbn [step] in H.
  - discriminate Hc.
  - unfold stopEngine in H.
    apply (frame_connected _ _ (frame_emit_all _ _ _ H)) in E.
    unfold connected in *. simpl in E. congruence.
  - injection H as <-. unfold connected in *. simpl in E. congruence.
  - injection H as <-. unfold connected in *. simpl in E. congruence.
  - apply (frame_connected _ _ (frame_emit _ _ _ H)) in E. congruence.
Qed.

Lemma run_keeps_disconnected (k : Connection) (cs : list Call) :
  forall s s',
    existsb is_start cs = false ->
    run cs s = Some s' ->
    connected k s = false -> connected k s' = false.
Proof.
  induction cs as [|c cs IH]; simpl; intros s s' Hc H D.
  - now injection H as <-.
  - apply orb_false_iff in Hc. destruct Hc as (Hc1 & Hc2).
    destruct (step c s) as [s1|] eqn:E; [|discriminate H]. simpl in H.
    eapply IH; [exact Hc2 | exact H |].
    eapply step_keeps_disconnected; eassumption.
Qed.

(** ** After a start *)

Lemma startEngine_connects (reply : RunnerStartReply) (s : RunControl)
    (r : bool) (s' : RunControl) :
  forallb (fun e => negb (is_finished e)) (emittedInStart reply) = true ->
  startEngine reply s = Some (r, s') ->
  connections s'
  = connections s ++ startEngine_connections (progressTasks s).
Proof.
  intros F H. destruct (m_settings s) as [st|] eqn:S.
  2:{ rewrite (startEngine_null reply s S) in H. discriminate H. }
  rewrite (startEngine_shape reply s st S) in H.
  destruct (emit_all (emittedInStart reply) (launched s st)) as [s1|] eqn:E;
    [|discriminate H].
  cbn [bind] in H. pose proof (emit_all_keeps_connections _ F _ _ E) as K.
  destruct (startReturns reply); cbn [negb] in H; injection H as <- <-;
    cbn [connections perform set_trace]; rewrite K; reflexivity.
Qed.

Lemma count_connection_app (c : Connection) (l1 l2 : list Connection) :
  count_connection c (l1 ++ l2)
  = count_connection c l1 + count_connection c l2.
Proof. unfold count_connection. now rewrite filter_app, length_app. Qed.

Lemma relay_once (lines : list (string * OutputFormat)) :
  forall s,
    count_connection out_conn (connections s) = 1 ->
    emit_all (output_signals lines) s
    = Some (set_trace (trace s ++ output_messages lines) s).
Proof.
  induction lines as [|[o f] lines IH]; intros s H.
  - simpl. now rewrite set_trace_same.
  - cbn [output_signals output_messages map emit_all fst snd].
    rewrite emit_output, H. cbn [bind repeat_effects].
    fold (output_signals lines). rewrite IH by exact H.
    f_equal. unfold set_trace. cbn [trace]. f_equal.
    fold (output_messages lines). rewrite <- app_assoc. reflexivity.
Qed.

(** X4.  In a session that was constructed and started once, and whose
    runner did not finish inside [start()], the lines of output that the
    runner signals reach the message sink verbatim, with the format they
    came with, each once and in the order of the signals. *)
Theorem output_is_relayed
    (b : AnalyzerRunControl) (t : ToolInterface)
    (rc : option RunConfiguration) (gs : option ValgrindBaseSettings)
    (pool : ObjectPool) (reply : RunnerStartReply) (r : bool)
    (s1 : RunControl) (lines : list (string * OutputFormat)) :
  forallb (fun e => negb (is_finished e)) (emittedInStart reply) = true ->
  startEngine reply (ValgrindRunControl b t rc gs pool) = Some (r, s1) ->
  exists s2 : RunControl,
    emit_all (output_signals lines) s1 = Some s2 /\
    added s1 s2 = output_messages lines.
Proof.
  intros F H. pose proof (startEngine_connects _ _ _ _ F H) as K.
  eexists. split.
  - apply relay_once. rewrite K. reflexivity.
  - apply added_set_trace.
Qed.

Lemma output_is_relayed_witness :
  exists s2 : RunControl,
    emit_all
      (output_signals [("==1== Memcheck", StdErrFormat);
                       ("hello", StdOutFormat);
                       ("==1== ERROR SUMMARY: 0 errors", StdErrFormat)])
      Sample.running = Some s2 /\
    added Sample.running s2
    = output_messages [("==1== Memcheck", StdErrFormat);
                       ("hello", StdOutFormat);
                       ("==1== ERROR SUMMARY: 0 errors", StdErrFormat)].
Proof.
  apply (output_is_relayed Sample.memcheck_base Sample.memcheck_tool None
           (Some Sample.configured) Sample.pool_with_pane Sample.spawned
           true Sample.running); vm_compute; reflexivity.
Defined.

(** X5.  Output is forwarded only between a start and the completion:
    while the output connection is absent, as it is in a newly constructed
    session and after [runnerFinished], and until [startEngine] is called
    (again), an output signal changes nothing. *)
Theorem output_is_dropped_when_detached
    (s : RunControl) (cs : list Call) (s' : RunControl)
    (output : string) (format : OutputFormat) :
  connected out_conn s = false ->
  existsb is_start cs = false ->
  run cs s = Some s' ->
  emit (processOutputReceived output format) s' = Some s' /\
  (forall b t rc gs pool,
      connected out_conn (ValgrindRunControl b t rc gs pool) = false) /\
  (forall x, connected out_conn (runnerFinished x) = false).
Proof.
  intros D Hc H. split; [|split].
  - rewrite emit_output.
    rewrite (count_connection_zero _ _
               (run_keeps_disconnected out_conn cs s s' Hc H D)).
    cbn [repeat_effects]. now rewrite set_trace_same.
  - reflexivity.
  - apply output_detached.
Qed.

Lemma output_is_dropped_when_detached_witness :
  emit (processOutputReceived "late line" StdOutFormat)
       (Sample.after Sample.aftermath (runnerFinished Sample.running))
  = Some (Sample.after Sample.aftermath (runnerFinished Sample.running)) /\
  (forall b t rc gs pool,
      connected out_conn (ValgrindRunControl b t rc gs pool) = false) /\
  (forall x, connected out_conn (runnerFinished x) = false).
Proof.
  apply (output_is_dropped_when_detached
           (runnerFinished Sample.running) Sample.aftermath);
    vm_compute; reflexivity.
Defined.

Lemma connected_app_r (c : Connection) (s : RunControl)
    (l1 l2 : list Connection) :
  connections s = l1 ++ l2 ->
  existsb (Connection_eqb c) l2 = true -> connected c s = true.
Proof.
  intros E H. unfold connected. rewrite E, existsb_app, H.
  apply orb_true_r.
Qed.

(** X6.  A call of [startEngine] arms the completion again: after it (the
    runner not having finished inside [start()]) the next finished signal
    runs [runnerFinished] exactly once, however often the session had been
    started or completed before. *)
Theorem startEngine_arms_completion
    (reply : RunnerStartReply) (s : RunControl) (r : bool)
    (s1 : RunControl) :
  forallb (fun e => negb (is_finished e)) (emittedInStart reply) = true ->
  startEngine reply s = Some (r, s1) ->
  emit finished s1 = Some (runnerFinished s1) /\
  added s1 (runnerFinished s1)
  = [AppendMessage ("Analyzing finished." ++ LF)%string NormalMessageFormat;
     EmitFinished; ReportFinished] /\
  emit finished (runnerFinished s1) = Some (runnerFinished s1).
Proof.
  intros F H. pose proof (startEngine_connects _ _ _ _ F H) as K.
  assert (C : connected fin_conn s1 = true)
    by (apply (connected_app_r _ _ _ _ K); reflexivity).
  split; [|split].
  - now rewrite emit_finished, C.
  - apply added_of_trace. simpl. rewrite <- !app_assoc. reflexivity.
  - now rewrite emit_finished, finished_detached.
Qed.

Lemma startEngine_arms_completion_witness :
  emit finished Sample.running = Some (runnerFinished Sample.running) /\
  added Sample.running (runnerFinished Sample.running)
  = [AppendMessage ("Analyzing finished." ++ LF)%string NormalMessageFormat;
     EmitFinished; ReportFinished] /\
  emit finished (runnerFinished Sample.running)
  = Some (runnerFinished Sample.running).
Proof.
  apply (startEngine_arms_completion Sample.spawned Sample.fresh true);
    vm_compute; reflexivity.
Defined.

(** ** Counting connections along a history *)

Lemma count_filter_other (c k : Connection) (l : list Connection) :
  Connection_eqb c k = false ->
  count_connection c (filter (fun x => negb (Connection_eqb x k)) l)
  = count_connection c l.
Proof.
  intro H. unfold count_connection.
  induction l as [|x l IH]; simpl; [reflexivity|].
  destruct (Connection_eqb x k) eqn:E; simpl.
  - destruct (Connection_eqb c x) eqn:G; [|exact IH].
    apply Connection_eqb_eq in E. apply Connection_eqb_eq in G.
    subst. assert (Connection_eqb k k = true) by now apply Connection_eqb_eq.
    congruence.
  - destruct (Connection_eqb c x); simpl; now rewrite IH.
Qed.

Lemma keeps_counts_refl (s : RunControl) : keeps_counts s s.
Proof. split; auto. Qed.

Lemma keeps_counts_trans (a b c : RunControl) :
  keeps_counts a b -> keeps_counts b c -> keeps_counts a c.
Proof.
  intros (A1 & A2) (B1 & B2). split; [congruence|].
  intros k H1 H2. now rewrite B2, A2.
Qed.

Lemma keeps_counts_invoke (sl : Slot) (e : Emission) (s s' : RunControl) :
  invoke sl e s = Some s' -> keeps_counts s s'.
Proof.
  destruct sl, e; simpl; try (intros [= <-]; apply keeps_counts_refl).
  - intros [= <-]. split; [reflexivity | intros; reflexivity].
  - rewrite receiveProcessError_reads.
    destruct (classify s message error); simpl; [|discriminate].
    intros [= <-]. split; [reflexivity | intros; reflexivity].
  - intros [= <-]. split; [reflexivity|]. intros k H1 H2.
    unfold runnerFinished, disconnect.
    cbn [connections set_connections perform set_trace].
    now rewrite !count_filter_other.
  - intros [= <-]. split; [reflexivity | intros; reflexivity].
  - intros [= <-]. split; [reflexivity | intros; reflexivity].
Qed.

Lemma keeps_counts_emit_all (es : list Emission) (s s' : RunControl) :
  emit_all es s = Some s' -> keeps_counts s s'.
Proof.
  apply emit_all_respects;
    [apply keeps_counts_refl | apply keeps_counts_trans
     | apply keeps_counts_invoke].
Qed.

Lemma keeps_counts_emit (e : Emission) (s s' : RunControl) :
  emit e s = Some s' -> keeps_counts s s'.
Proof.
  apply emit_respects;
    [apply keeps_counts_refl | apply keeps_counts_trans
     | apply keeps_counts_invoke].
Qed.

Lemma step_counts (k : Connection) (c : Call) (s s' : RunControl) :
  Connection_eqb k out_conn = false ->
  Connection_eqb k fin_conn = false ->
  step c s = Some s' ->
  progressTasks s' = progressTasks s + (if is_start c then 1 else 0) /\
  count_connection k (connections s')
  = count_connection k (connections s)
    + (if is_start c
       then count_connection k (startEngine_connections (progressTasks s))
       else 0).
Proof.
  intros K1 K2 H. destruct c as [reply|es|env|mode|e]; cbn [step is_start] in *.
  - destruct (startEngine reply s) as [[r s1]|] eqn:E; [|discriminate H].
    cbn [bind snd] in H. injection H as <-.
    destruct (m_settings s) as [st|] eqn:S.
    2:{ rewrite (startEngine_null reply s S) in E. discriminate E. }
    rewrite (startEngine_shape reply s st S) in E.
    destruct (emit_all (emittedInStart reply) (launched s st)) as [s2|] eqn:EA;
      [|discriminate E].
    cbn [bind] in E. destruct (keeps_counts_emit_all _ _ _ EA) as (A1 & A2).
    specialize (A2 k K1 K2).
    cbn [launched connections progressTasks set_trace set_connections
         set_progressTasks] in A1, A2.
    rewrite count_connection_app in A2.
    destruct (startReturns reply); cbn [negb] in E; injection E as _ <-;
      cbn [connections progressTasks perform set_trace];
      rewrite A1, A2; split; [lia | reflexivity | lia | reflexivity].
  - unfold stopEngine in H.
    destruct (keeps_counts_emit_all _ _ _ H) as (A1 & A2).
    rewrite A1, (A2 k K1 K2). simpl. split; lia.
  - injection H as <-. simpl. split; lia.
  - injection H as <-. simpl. split; lia.
  - destruct (keeps_counts_emit _ _ _ H) as (A1 & A2).
    rewrite A1, (A2 k K1 K2). split; lia.
Qed.


Lemma cancel_count_start (fp p : nat) :
  count_connection (cancel_conn fp) (startEngine_connections p)
  = if (fp =? p)%nat then 1 else 0.
Proof.
  unfold count_connection, startEngine_connections. simpl.
  unfold Connection_eqb, cancel_conn. simpl.
  now destruct (fp =? p)%nat.
Qed.

Lemma run_cancel_connections (fp : nat) (cs : list Call) :
  forall s s',
    run cs s = Some s' ->
    progressTasks s' = progressTasks s + starts cs /\
    count_connection (cancel_conn fp) (connections s')
    = count_connection (cancel_conn fp) (connections s)
      + (if ((progressTasks s <=? fp) && (fp <? progressTasks s + starts cs))%nat
         then 1 else 0).
Proof.
  induction cs as [|c cs IH]; simpl; intros s s' H.
  - injection H as <-. unfold starts. simpl. split; [lia|].
    destruct (progressTasks s <=? fp)%nat eqn:L1;
      destruct (fp <? progressTasks s + 0)%nat eqn:L2; simpl; try lia.
    apply Nat.leb_le in L1. apply Nat.ltb_lt in L2. lia.
  - destruct (step c s) as [s1|] eqn:E; [|discriminate H]. simpl in H.
    destruct (IH _ _ H) as (B1 & B2).
    destruct (step_counts (cancel_conn fp) c s s1 eq_refl eq_refl E)
      as (A1 & A2).
    rewrite B1, B2, A1, A2. unfold starts. simpl.
    destruct (is_start c); simpl.
    + rewrite cancel_count_start. split; [lia|].
      destruct (fp =? progressTasks s)%nat eqn:Q; simpl;
        [apply Nat.eqb_eq in Q | apply Nat.eqb_neq in Q];
        repeat match goal with
          | |- context [Nat.leb ?a ?b] =>
              let L := fresh "L" in
              destruct (Nat.leb a b) eqn:L;
              [apply Nat.leb_le in L | apply Nat.leb_gt in L]
          | |- context [Nat.ltb ?a ?b] =>
              let L := fresh "L" in
              destruct (Nat.ltb a b) eqn:L;
              [apply Nat.ltb_lt in L | apply Nat.ltb_ge in L]
          end; simpl; lia.
    + rewrite !Nat.add_0_r. split; [lia | reflexivity].
Qed.



(** X8.  The cancel signal of a progress task is never disconnected: in a
    session started n times since its construction, the signal of each of
    the n tasks handed out so far runs [handleProgressCanceled] exactly
    once (stop the tool, report canceled, report finished), also after the
    run has completed; a signal of any other task reaches nothing. *)
Theorem progress_cancel_is_handled_once
    (b : AnalyzerRunControl) (t : ToolInterface)
    (rc : option RunConfiguration) (gs : option ValgrindBaseSettings)
    (pool : ObjectPool) (cs : list Call) (s' : RunControl) (fp : nat) :
  run cs (ValgrindRunControl b t rc gs pool) = Some s' ->
  progressTasks s' = starts cs /\
  exists s'' : RunControl,
    emit (progressCanceled fp) s' = Some s'' /\
    added s' s''
    = if (fp <? starts cs)%nat
      then [StopTool; ReportCanceled; ReportFinished]
      else [].
Proof.
  intro H. destruct (run_cancel_connections fp _ _ _ H) as (A1 & A2).
  change (progressTasks (ValgrindRunControl b t rc gs pool)) with 0 in *.
  change (count_connection (cancel_conn fp)
            (connections (ValgrindRunControl b t rc gs pool))) with 0 in A2.
  simpl in A1, A2. split; [exact A1|].
  eexists. split; [apply emit_canceled|].
  rewrite added_set_trace, A2.
  destruct (fp <? starts cs)%nat; simpl; reflexivity.
Qed.

Lemma progress_cancel_is_handled_once_witness :
  progressTasks
    (Sample.after [CallStartEngine Sample.spawned; Emitted finished]
                  Sample.fresh) = 1 /\
  exists s'' : RunControl,
    emit (progressCanceled 0)
      (Sample.after [CallStartEngine Sample.spawned; Emitted finished]
                    Sample.fresh) = Some s'' /\
    added (Sample.after [CallStartEngine Sample.spawned; Emitted finished]
                        Sample.fresh) s''
    = [StopTool; ReportCanceled; ReportFinished].
Proof.
  apply (progress_cancel_is_handled_once
           Sample.memcheck_base Sample.memcheck_tool None
           (Some Sample.configured) Sample.pool_with_pane
           [CallStartEngine Sample.spawned; Emitted finished] _ 0).
  vm_compute. reflexivity.
Defined.

(** ** Stopping *)

(** X9.  [stopEngine] sets the flag before it asks the runner to stop, so
    a crash that the runner signals from within [stop()] is already
    reported as the benign termination, once per error connection, and
    does not activate the pane. *)
Theorem stop_reports_its_own_crash (s : RunControl) (message : string) :
  exists s' : RunControl,
    stopEngine [processErrorReceived message Crashed] s = Some s' /\
    m_isStopping s' = true /\
    added s s'
    = RunnerStop
        :: repeat_effects (error_connections (connections s))
             [AppendMessage ("Process terminated." ++ LF)%string
                            ErrorMessageFormat].
Proof.
  unfold stopEngine. cbn [emit_all]. rewrite emit_error.
  cbn [connections perform set_trace set_isStopping].
  destruct (error_connections (connections s)) as [|n] eqn:N.
  - cbn [error_effects option_map bind]. eexists. split; [reflexivity|].
    split; [reflexivity|]. apply added_of_trace.
    cbn [trace set_trace perform set_isStopping repeat_effects].
    now rewrite app_nil_r.
  - cbn [error_effects option_map bind classify m_isStopping perform
         set_trace set_isStopping].
    eexists. split; [reflexivity|]. split; [reflexivity|].
    apply added_of_trace.
    cbn [trace set_trace perform set_isStopping].
    rewrite <- app_assoc. reflexivity.
Qed.

(** ** The messages of the error slot *)

Lemma last_char_app (a b : string) (c : ascii) :
  last_char b = Some c -> last_char (a ++ b)%string = Some c.
Proof.
  intro H. induction a as [|x a IH]; [exact H|].
  cbn [append last_char]. destruct (a ++ b)%string eqn:E.
  - discriminate IH.
  - exact IH.
Qed.

Lemma last_char_LF (a : string) :
  last_char (a ++ LF)%string = Some "010"%char.
Proof. now apply last_char_app. Qed.

(** X10.  Whatever the error and the state of the session, the error slot
    appends exactly one message to the sink; it carries the error format
    and its text ends with a newline. *)
Theorem error_slot_appends_one_message
    (message : string) (error : ProcessError) (s s' : RunControl) :
  receiveProcessError message error s = Some s' ->
  exists text : string,
    filter is_AppendMessage (added s s')
    = [AppendMessage text ErrorMessageFormat] /\
    last_char text = Some "010"%char.
Proof.
  intro H. destruct (receiveProcessError_added _ _ _ _ H) as (text & C & A).
  exists text. rewrite A. split.
  - cbn [filter is_AppendMessage]. f_equal.
    unfold pane_activation. destruct (m_isStopping s); [reflexivity|].
    match goal with |- context [qobject_cast_IOutputPane ?o] =>
      destruct (qobject_cast_IOutputPane o) end; reflexivity.
  - assert (S : last_char (starred message) = Some "010"%char).
    { rewrite starred_text.
      change ("** " ++ message ++ " **" ++ LF)%string
        with ("** " ++ (message ++ (" **" ++ LF)))%string.
      apply last_char_app, last_char_app. reflexivity. }
    unfold classify in C. destruct error; try (injection C as <-; exact S).
    + destruct (m_settings s) as [st|]; [|discriminate C]. simpl in C.
      injection C as <-. destruct (isEmpty (valgrindExecutable st)).
      * reflexivity.
      * rewrite could_not_be_started_text.
        repeat apply last_char_app. reflexivity.
    + injection C as <-. destruct (m_isStopping s); [reflexivity | exact S].
Qed.

Lemma error_slot_appends_one_message_witness :
  exists text : string,
    filter is_AppendMessage
      (added Sample.fresh_unconfigured
         (perform (Popup NoModeSwitch)
            (perform (AppendMessage no_executable_set ErrorMessageFormat)
               Sample.fresh_unconfigured)))
    = [AppendMessage text ErrorMessageFormat] /\
    last_char text = Some "010"%char.
Proof.
  apply (error_slot_appends_one_message "execve failed" FailedToStart
           Sample.fresh_unconfigured).
  reflexivity.
Defined.

(** ** The settings of a session *)

(** X11.  A session uses the settings chosen by its constructor for as long
    as it lives: those of the Valgrind aspect of the run configuration when
    there is a run configuration, it has that aspect and the aspect's
    current settings are Valgrind settings, and the global settings in
    every other case; no call and no signal replaces them. *)
Theorem session_settings_are_fixed
    (b : AnalyzerRunControl) (t : ToolInterface)
    (rc : option RunConfiguration) (gs : option ValgrindBaseSettings)
    (pool : ObjectPool) (cs : list Call) (s' : RunControl) :
  run cs (ValgrindRunControl b t rc gs pool) = Some s' ->
  m_settings s'
  = match rc with
    | None => gs
    | Some r =>
        match extraAspect r ANALYZER_VALGRIND_SETTINGS with
        | None => gs
        | Some aspect =>
            match currentSettings aspect with
            | Some (ValgrindSettingsObject st) => Some st
            | Some ForeignSettingsObject => gs
            | None => gs
            end
        end
    end.
Proof.
  intro H. destruct (run_members _ _ _ H) as (_ & -> & _).
  unfold ValgrindRunControl. cbn [m_settings].
  destruct rc as [r|]; [|reflexivity].
  destruct (extraAspect r ANALYZER_VALGRIND_SETTINGS) as [a|];
    [|reflexivity].
  destruct (currentSettings a) as [[st|]|]; reflexivity.
Qed.

Lemma session_settings_are_fixed_witness :
  m_settings (Sample.after Sample.aftermath Sample.stopped)
  = Some Sample.configured.
Proof.
  apply (session_settings_are_fixed
           Sample.memcheck_base Sample.memcheck_tool None
           (Some Sample.configured) Sample.pool_with_pane
           ([CallStartEngine Sample.spawned; CallStopEngine Sample.killed]
              ++ Sample.aftermath)).
  vm_compute. reflexivity.
Defined.

(** ** The runner and the progress indicator along a history *)






End SessionFacts.
